(** * Pulse of Korea: population manager (src/population_manager.py)

    Shallow embedding of [PopulationManager].  Python floats are modelled
    as exact rationals [Q]; Python's [int(x)] on a float truncates toward
    zero, modelled by [py_int].  Timestamps returned by [time.time()] are
    [Q] seconds since the Unix epoch; readings of
    [datetime.now(kst)] are integer microseconds since the Unix epoch
    (datetime has microsecond resolution).  WebSocket clients are opaque
    handles, modelled as [nat]. *)

From Stdlib Require Import ZArith QArith Qround Qabs String Ascii List Lia Bool.
From Stdlib Require Import SpecFloat Lqa Qfield.
Import ListNotations.

Open Scope Z_scope.

(** ** Python numeric primitives *)

(** [int(x)] for a float [x]: truncation toward zero. *)
Definition py_int (q : Q) : Z := Z.quot (Qnum q) (Zpos (Qden q)).

(** The float literal [365.25]. *)
Definition days_per_year : Q := 36525 # 100.

(** [24 * 60 * 60] *)
Definition seconds_per_day : Z := 24 * 60 * 60.

(** ** Data classes *)

Definition Client := nat.

Record PopulationEvent := mkPopulationEvent {
  ev_country : string;
  ev_event_type : string;
  ev_timestamp : Q }.

Record CountryData := mkCountryData {
  name : string;
  base_population : Z;
  base_year : Z;
  base_date : string;
  annual_births : Z;
  annual_deaths : Z;
  annual_growth_rate : Q;
  fertility_rate : Q;
  life_expectancy : Q;
  birth_rate : Q;
  death_rate : Q;
  data_source : string }.

(** [CountryData.calculate_daily_increment] *)
Definition calculate_daily_increment (d : CountryData) : Q :=
  let annual_increment := (inject_Z (base_population d) * (annual_growth_rate d / 100))%Q in
  (annual_increment / days_per_year)%Q.

(** [CountryData.calculate_birth_death_rates_per_second] *)
Definition calculate_birth_death_rates_per_second (d : CountryData) : Q * Q :=
  let births_per_second := (inject_Z (annual_births d) / (days_per_year * 24 * 60 * 60))%Q in
  let deaths_per_second := (inject_Z (annual_deaths d) / (days_per_year * 24 * 60 * 60))%Q in
  (births_per_second, deaths_per_second).

Record PopulationState := mkPopulationState {
  timestamp : Q;
  south_korea_population : Z;
  north_korea_population : Z;
  total_population : Z;
  st_sk_births_today : Z;
  st_sk_deaths_today : Z;
  st_nk_births_today : Z;
  st_nk_deaths_today : Z;
  seconds_since_midnight_kst : Z;
  st_recent_events : list PopulationEvent }.

(** ** The manager object *)

(** Instance attributes of [PopulationManager].  [broadcast_interval],
    [resync_interval] and [max_recent_events] are never reassigned and are
    constants below.  [sk_daily_increment] / [nk_daily_increment] are only
    created by [update_base_data], hence [option]. *)
Record PopulationManager := mkManager {
  connected_clients : list Client;
  last_update_time : Q;
  last_resync_time : Q;
  sk_population : Z;
  nk_population : Z;
  recent_events : list PopulationEvent;
  sk_births_today : Z;
  sk_deaths_today : Z;
  nk_births_today : Z;
  nk_deaths_today : Z;
  current_day : Z;
  south_korea_data : CountryData;
  north_korea_data : CountryData;
  sk_births_per_sec : Q;
  sk_deaths_per_sec : Q;
  nk_births_per_sec : Q;
  nk_deaths_per_sec : Q;
  sk_daily_increment : option Q;
  nk_daily_increment : option Q }.

Definition broadcast_interval : Q := 1%Q.
Definition resync_interval : Q := 30%Q.
Definition max_recent_events : Z := 0.

(** ** Korea time (UTC+9) from a [datetime.now(kst)] reading *)

Definition us_per_s : Z := 1000000.
Definition kst_offset_us : Z := 9 * 3600 * us_per_s.

(** [get_korea_timezone_now().date()], as a day number. *)
Definition kst_date (now_us : Z) : Z :=
  (now_us + kst_offset_us) / (seconds_per_day * us_per_s).

(** [get_seconds_since_midnight_kst]: [int((now_kst - midnight_kst).total_seconds())]. *)
Definition get_seconds_since_midnight_kst (now_us : Z) : Z :=
  ((now_us + kst_offset_us) mod (seconds_per_day * us_per_s)) / us_per_s.

Definition digit (n : Z) : ascii := ascii_of_nat (48 + Z.to_nat n).

Definition two_digits (n : Z) : string :=
  String (digit (n / 10)) (String (digit (n mod 10)) EmptyString).

(** [get_korea_timezone_now().strftime("%H:%M:%S")] *)
Definition korea_time_hms (now_us : Z) : string :=
  let s := get_seconds_since_midnight_kst now_us in
  (two_digits (s / 3600) ++ ":" ++ two_digits ((s mod 3600) / 60) ++ ":"
   ++ two_digits (s mod 60))%string.

(** ** [PopulationManager.__init__] *)

Definition south_korea_init : CountryData := {|
  name := "South Korea";
  base_population := 51628117;
  base_year := 2024;
  base_date := "2024-01-01T00:00:00Z";
  annual_births := 216215;
  annual_deaths := 325162;
  annual_growth_rate := (-21 # 100)%Q;
  fertility_rate := 748 # 1000;
  life_expectancy := 755 # 10;
  birth_rate := 42 # 10;
  death_rate := 63 # 10;
  data_source := "KOSIS (Korean Statistical Information Service)" |}.

Definition north_korea_init : CountryData := {|
  name := "North Korea";
  base_population := 25971909;
  base_year := 2024;
  base_date := "2024-01-01T00:00:00Z";
  annual_births := py_int (inject_Z 25971909 * (132 # 10) / 1000)%Q;
  annual_deaths := py_int (inject_Z 25971909 * (92 # 10) / 1000)%Q;
  annual_growth_rate := (4 # 10)%Q;
  fertility_rate := 19 # 10;
  life_expectancy := 723 # 10;
  birth_rate := 132 # 10;
  death_rate := 92 # 10;
  data_source := "CIA World Factbook 2024" |}.

(** [__init__] reads [time.time()] twice ([t_update], [t_resync]) and the
    Korea clock once ([now_us]). *)
Definition init_manager (t_update t_resync : Q) (now_us : Z) : PopulationManager := {|
  connected_clients := [];
  last_update_time := t_update;
  last_resync_time := t_resync;
  sk_population := 0;
  nk_population := 0;
  recent_events := [];
  sk_births_today := 0;
  sk_deaths_today := 0;
  nk_births_today := 0;
  nk_deaths_today := 0;
  current_day := kst_date now_us;
  south_korea_data := south_korea_init;
  north_korea_data := north_korea_init;
  sk_births_per_sec := fst (calculate_birth_death_rates_per_second south_korea_init);
  sk_deaths_per_sec := snd (calculate_birth_death_rates_per_second south_korea_init);
  nk_births_per_sec := fst (calculate_birth_death_rates_per_second north_korea_init);
  nk_deaths_per_sec := snd (calculate_birth_death_rates_per_second north_korea_init);
  sk_daily_increment := None;
  nk_daily_increment := None |}.

(** ** [PopulationManager.calculate_current_population] *)

(** [datetime(2024, 1, 1, tzinfo=timezone.utc).timestamp()] *)
Definition base_timestamp : Q := inject_Z 1704067200.

Section Estimator.
Local Open Scope Q_scope.

(** Lines 233-234: the growth increment of one country. *)
Definition growth_increment (d : CountryData) (current_time : Q) : Q :=
  let time_elapsed_seconds := current_time - base_timestamp in
  let time_elapsed_days := time_elapsed_seconds / inject_Z seconds_per_day in
  (annual_growth_rate d / 100) * inject_Z (base_population d) * (time_elapsed_days / days_per_year).

(** Lines 236-237. *)
Definition country_population (d : CountryData) (current_time : Q) : Z :=
  py_int (inject_Z (base_population d) + growth_increment d current_time).

(** Lines 244-247: [int(annual_count * day_fraction / 365.25)]. *)
Definition count_today (annual_count : Z) (seconds_today : Z) : Z :=
  let day_fraction := inject_Z seconds_today / inject_Z seconds_per_day in
  py_int (inject_Z annual_count * day_fraction / days_per_year).

End Estimator.

(** The method reads [time.time()] ([current_time]) and the Korea clock
    twice: for the day check ([date_us]) and inside
    [get_seconds_since_midnight_kst] ([secs_us]).  It returns the snapshot
    and the updated manager. *)
Definition calculate_current_population (m : PopulationManager)
    (current_time : Q) (date_us secs_us : Z) : PopulationState * PopulationManager :=
  let current_date := kst_date date_us in
  let day := if Z.eqb current_date (current_day m) then current_day m else current_date in
  let sk := south_korea_data m in
  let nk := north_korea_data m in
  let skp := country_population sk current_time in
  let nkp := country_population nk current_time in
  let seconds_today := get_seconds_since_midnight_kst secs_us in
  let skb := count_today (annual_births sk) seconds_today in
  let skd := count_today (annual_deaths sk) seconds_today in
  let nkb := count_today (annual_births nk) seconds_today in
  let nkd := count_today (annual_deaths nk) seconds_today in
  let m' := {|
    connected_clients := connected_clients m;
    last_update_time := current_time;
    last_resync_time := last_resync_time m;
    sk_population := skp;
    nk_population := nkp;
    recent_events := recent_events m;
    sk_births_today := skb;
    sk_deaths_today := skd;
    nk_births_today := nkb;
    nk_deaths_today := nkd;
    current_day := day;
    south_korea_data := sk;
    north_korea_data := nk;
    sk_births_per_sec := sk_births_per_sec m;
    sk_deaths_per_sec := sk_deaths_per_sec m;
    nk_births_per_sec := nk_births_per_sec m;
    nk_deaths_per_sec := nk_deaths_per_sec m;
    sk_daily_increment := sk_daily_increment m;
    nk_daily_increment := nk_daily_increment m |} in
  ({| timestamp := current_time;
      south_korea_population := sk_population m';
      north_korea_population := nk_population m';
      total_population := sk_population m' + nk_population m';
      st_sk_births_today := sk_births_today m';
      st_sk_deaths_today := sk_deaths_today m';
      st_nk_births_today := nk_births_today m';
      st_nk_deaths_today := nk_deaths_today m';
      seconds_since_midnight_kst := seconds_today;
      st_recent_events := recent_events m |}, m').

(** ** Client membership *)

Definition set_clients (m : PopulationManager) (cs : list Client) : PopulationManager := {|
  connected_clients := cs;
  last_update_time := last_update_time m;
  last_resync_time := last_resync_time m;
  sk_population := sk_population m;
  nk_population := nk_population m;
  recent_events := recent_events m;
  sk_births_today := sk_births_today m;
  sk_deaths_today := sk_deaths_today m;
  nk_births_today := nk_births_today m;
  nk_deaths_today := nk_deaths_today m;
  current_day := current_day m;
  south_korea_data := south_korea_data m;
  north_korea_data := north_korea_data m;
  sk_births_per_sec := sk_births_per_sec m;
  sk_deaths_per_sec := sk_deaths_per_sec m;
  nk_births_per_sec := nk_births_per_sec m;
  nk_deaths_per_sec := nk_deaths_per_sec m;
  sk_daily_increment := sk_daily_increment m;
  nk_daily_increment := nk_daily_increment m |}.

Definition set_last_resync_time (m : PopulationManager) (t : Q) : PopulationManager := {|
  connected_clients := connected_clients m;
  last_update_time := last_update_time m;
  last_resync_time := t;
  sk_population := sk_population m;
  nk_population := nk_population m;
  recent_events := recent_events m;
  sk_births_today := sk_births_today m;
  sk_deaths_today := sk_deaths_today m;
  nk_births_today := nk_births_today m;
  nk_deaths_today := nk_deaths_today m;
  current_day := current_day m;
  south_korea_data := south_korea_data m;
  north_korea_data := north_korea_data m;
  sk_births_per_sec := sk_births_per_sec m;
  sk_deaths_per_sec := sk_deaths_per_sec m;
  nk_births_per_sec := nk_births_per_sec m;
  nk_deaths_per_sec := nk_deaths_per_sec m;
  sk_daily_increment := sk_daily_increment m;
  nk_daily_increment := nk_daily_increment m |}.

(** [list.remove(x)]: drop the first occurrence. *)
Fixpoint list_remove (x : Client) (l : list Client) : list Client :=
  match l with
  | [] => []
  | y :: l' => if Nat.eqb x y then l' else y :: list_remove x l'
  end.

(** [add_client]: [self.connected_clients.append(websocket)]. *)
Definition add_client (m : PopulationManager) (ws : Client) : PopulationManager :=
  set_clients m (connected_clients m ++ [ws]).

(** [remove_client] *)
Definition remove_client (m : PopulationManager) (ws : Client) : PopulationManager :=
  if existsb (Nat.eqb ws) (connected_clients m)
  then set_clients m (list_remove ws (connected_clients m))
  else m.

(** ** [PopulationManager.broadcast_update] *)

(** The outbound JSON object built at lines 288-310. *)
Record TickMessage := mkTickMessage {
  msg_timestamp : Q;
  msg_south_korea_population : Z;
  msg_north_korea_population : Z;
  msg_total_population : Z;
  msg_sk_births_today : Z;
  msg_sk_deaths_today : Z;
  msg_nk_births_today : Z;
  msg_nk_deaths_today : Z;
  msg_korea_time : string;
  msg_seconds_since_midnight : Z;
  msg_is_resync : bool;
  msg_sk_births_per_sec : Q;
  msg_sk_deaths_per_sec : Q;
  msg_nk_births_per_sec : Q;
  msg_nk_deaths_per_sec : Q;
  msg_any_birth : bool;
  msg_any_death : bool }.

(** The send loop of lines 320-326.  [fails c] says whether
    [client.send_text] raises for [c] during this tick; the exception is
    caught and [c] is appended to [disconnected_clients].  Returns the
    clients the message was delivered to and [disconnected_clients]. *)
Fixpoint send_all (fails : Client -> bool) (cs : list Client) : list Client * list Client :=
  match cs with
  | [] => ([], [])
  | c :: cs' =>
      let '(delivered, disconnected) := send_all fails cs' in
      if fails c then (delivered, c :: disconnected) else (c :: delivered, disconnected)
  end.

(** Lines 329-330. *)
Definition remove_clients (m : PopulationManager) (ds : list Client) : PopulationManager :=
  fold_left remove_client ds m.

(** [broadcast_update(state)]; [clock_us] is the Korea clock read for
    [korea_time].  The result carries the message built and the clients it
    was delivered to, or [None] on the early return when no client is
    connected. *)
Definition broadcast_update (m : PopulationManager) (state : PopulationState)
    (clock_us : Z) (fails : Client -> bool)
    : PopulationManager * option (TickMessage * list Client) :=
  match connected_clients m with
  | [] => (m, None)
  | _ :: _ =>
      let current_time := timestamp state in
      let is_resync_time := Qle_bool resync_interval (current_time - last_resync_time m) in
      let m1 := if is_resync_time then set_last_resync_time m current_time else m in
      let message := {|
        msg_timestamp := timestamp state;
        msg_south_korea_population := south_korea_population state;
        msg_north_korea_population := north_korea_population state;
        msg_total_population := total_population state;
        msg_sk_births_today := st_sk_births_today state;
        msg_sk_deaths_today := st_sk_deaths_today state;
        msg_nk_births_today := st_nk_births_today state;
        msg_nk_deaths_today := st_nk_deaths_today state;
        msg_korea_time := korea_time_hms clock_us;
        msg_seconds_since_midnight := seconds_since_midnight_kst state;
        msg_is_resync := is_resync_time;
        msg_sk_births_per_sec := sk_births_per_sec m1;
        msg_sk_deaths_per_sec := sk_deaths_per_sec m1;
        msg_nk_births_per_sec := nk_births_per_sec m1;
        msg_nk_deaths_per_sec := nk_deaths_per_sec m1;
        msg_any_birth := false;
        msg_any_death := false |} in
      let '(delivered, disconnected) := send_all fails (connected_clients m1) in
      (remove_clients m1 disconnected, Some (message, delivered))
  end.

(** ** The broadcast loop and the WebSocket endpoint *)

(** The inputs of one iteration of [start_broadcasting]: the clock
    readings of [calculate_current_population] and [broadcast_update], and
    which sends fail. *)
Record TickInput := mkTickInput {
  tick_time : Q;
  tick_date_us : Z;
  tick_secs_us : Z;
  tick_clock_us : Z;
  tick_send_fails : Client -> bool }.

(** Events seen by the manager: a loop iteration, a WebSocket connection
    ([add_client] in [websocket_endpoint]) and the end of one (its
    [finally: remove_client]). *)
Inductive Event :=
  | EvTick (i : TickInput)
  | EvConnect (c : Client)
  | EvDisconnect (c : Client).

(** One tick: [state = calculate_current_population(); broadcast_update(state)]. *)
Definition tick (m : PopulationManager) (i : TickInput)
    : PopulationManager * option (TickMessage * list Client) :=
  let '(state, m1) := calculate_current_population m (tick_time i) (tick_date_us i) (tick_secs_us i) in
  broadcast_update m1 state (tick_clock_us i) (tick_send_fails i).

(** A run: the final manager and, in order, every tick message built with
    the clients it was delivered to. *)
Fixpoint run (m : PopulationManager) (evs : list Event)
    : PopulationManager * list (TickMessage * list Client) :=
  match evs with
  | [] => (m, [])
  | EvTick i :: evs' =>
      let '(m1, out) := tick m i in
      let '(m2, outs) := run m1 evs' in
      (m2, match out with Some o => o :: outs | None => outs end)
  | EvConnect c :: evs' => run (add_client m c) evs'
  | EvDisconnect c :: evs' => run (remove_client m c) evs'
  end.

(** ** The send loop over the live list

    [for client in self.connected_clients] iterates the list object itself,
    by index: each step reads element [k] of the list as it is then, and
    stops once [k] reaches its current length.  During
    [await client.send_text(...)] other tasks run; among them the
    [finally: remove_client(websocket)] of [websocket_endpoint] for
    connections that ended.  [removed_during k] lists the clients removed
    that way while the [k]-th send is pending (connections accepted
    meanwhile are not modelled).  The fuel is the length of the list when
    the loop starts, which it never exceeds. *)
Fixpoint send_loop_live (fuel : nat) (fails : Client -> bool)
    (removed_during : nat -> list Client) (k : nat) (m : PopulationManager)
    (delivered disconnected : list Client)
    : PopulationManager * list Client * list Client :=
  match fuel with
  | O => (m, delivered, disconnected)
  | S fuel' =>
      match nth_error (connected_clients m) k with
      | None => (m, delivered, disconnected)
      | Some client =>
          let m' := remove_clients m (removed_during k) in
          if fails client
          then send_loop_live fuel' fails removed_during (S k) m' delivered (disconnected ++ [client])
          else send_loop_live fuel' fails removed_during (S k) m' (delivered ++ [client]) disconnected
      end
  end.

(** [broadcast_update(state)] with the send loop over the live list. *)
Definition broadcast_update_live (m : PopulationManager) (state : PopulationState)
    (clock_us : Z) (fails : Client -> bool) (removed_during : nat -> list Client)
    : PopulationManager * option (TickMessage * list Client) :=
  match connected_clients m with
  | [] => (m, None)
  | _ :: _ =>
      let current_time := timestamp state in
      let is_resync_time := Qle_bool resync_interval (current_time - last_resync_time m) in
      let m1 := if is_resync_time then set_last_resync_time m current_time else m in
      let message := {|
        msg_timestamp := timestamp state;
        msg_south_korea_population := south_korea_population state;
        msg_north_korea_population := north_korea_population state;
        msg_total_population := total_population state;
        msg_sk_births_today := st_sk_births_today state;
        msg_sk_deaths_today := st_sk_deaths_today state;
        msg_nk_births_today := st_nk_births_today state;
        msg_nk_deaths_today := st_nk_deaths_today state;
        msg_korea_time := korea_time_hms clock_us;
        msg_seconds_since_midnight := seconds_since_midnight_kst state;
        msg_is_resync := is_resync_time;
        msg_sk_births_per_sec := sk_births_per_sec m1;
        msg_sk_deaths_per_sec := sk_deaths_per_sec m1;
        msg_nk_births_per_sec := nk_births_per_sec m1;
        msg_nk_deaths_per_sec := nk_deaths_per_sec m1;
        msg_any_birth := false;
        msg_any_death := false |} in
      let '(m2, delivered, disconnected) :=
        send_loop_live (length (connected_clients m1)) fails removed_during 0 m1 [] [] in
      (remove_clients m2 disconnected, Some (message, delivered))
  end.

Definition tick_live (m : PopulationManager) (i : TickInput) (removed_during : nat -> list Client)
    : PopulationManager * option (TickMessage * list Client) :=
  let '(state, m1) := calculate_current_population m (tick_time i) (tick_date_us i) (tick_secs_us i) in
  broadcast_update_live m1 state (tick_clock_us i) (tick_send_fails i) removed_during.

(** Events of a run where endpoints may end during a tick's sends. *)
Inductive LiveEvent :=
  | LTick (i : TickInput) (removed_during : nat -> list Client)
  | LConnect (c : Client)
  | LDisconnect (c : Client).

Fixpoint run_live (m : PopulationManager) (evs : list LiveEvent)
    : PopulationManager * list (TickMessage * list Client) :=
  match evs with
  | [] => (m, [])
  | LTick i rd :: evs' =>
      let '(m1, out) := tick_live m i rd in
      let '(m2, outs) := run_live m1 evs' in
      (m2, match out with Some o => o :: outs | None => outs end)
  | LConnect c :: evs' => run_live (add_client m c) evs'
  | LDisconnect c :: evs' => run_live (remove_client m c) evs'
  end.

(** ** [PopulationManager.update_base_data] *)

(** The [new_data] dictionary: [None] is an absent key.  The only caller
    (the admin endpoint of main.py) stores values of these types. *)
Record UpdateData := mkUpdateData {
  ud_population : option Z;
  ud_year : option Z;
  ud_date : option string;
  ud_births : option Z;
  ud_deaths : option Z;
  ud_growth_rate : option Q }.

(** [dict.get(key, default)] *)
Definition dict_get {A} (v : option A) (default : A) : A :=
  match v with Some x => x | None => default end.

(** [str.lower()] on ASCII text.  Strings are byte strings here; Unicode
    case mappings (U+212A KELVIN SIGN lowers to [k] in Python) are outside
    the model. *)
Definition lower_char (c : ascii) : ascii :=
  let n := nat_of_ascii c in
  if (65 <=? n)%nat && (n <=? 90)%nat then ascii_of_nat (n + 32) else c.

Fixpoint lower (s : string) : string :=
  match s with
  | EmptyString => EmptyString
  | String c s' => String (lower_char c) (lower s')
  end.

(** The six field assignments of one branch. *)
Definition update_country (d : CountryData) (u : UpdateData) : CountryData := {|
  name := name d;
  base_population := dict_get (ud_population u) (base_population d);
  base_year := dict_get (ud_year u) (base_year d);
  base_date := dict_get (ud_date u) (base_date d);
  annual_births := dict_get (ud_births u) (annual_births d);
  annual_deaths := dict_get (ud_deaths u) (annual_deaths d);
  annual_growth_rate := dict_get (ud_growth_rate u) (annual_growth_rate d);
  fertility_rate := fertility_rate d;
  life_expectancy := life_expectancy d;
  birth_rate := birth_rate d;
  death_rate := death_rate d;
  data_source := data_source d |}.

Definition update_base_data (m : PopulationManager) (country : string) (new_data : UpdateData)
    : PopulationManager :=
  if String.eqb (lower country) "south_korea" then
    let sk := update_country (south_korea_data m) new_data in
    let rates := calculate_birth_death_rates_per_second sk in
    {| connected_clients := connected_clients m;
       last_update_time := last_update_time m;
       last_resync_time := last_resync_time m;
       sk_population := sk_population m;
       nk_population := nk_population m;
       recent_events := recent_events m;
       sk_births_today := sk_births_today m;
       sk_deaths_today := sk_deaths_today m;
       nk_births_today := nk_births_today m;
       nk_deaths_today := nk_deaths_today m;
       current_day := current_day m;
       south_korea_data := sk;
       north_korea_data := north_korea_data m;
       sk_births_per_sec := fst rates;
       sk_deaths_per_sec := snd rates;
       nk_births_per_sec := nk_births_per_sec m;
       nk_deaths_per_sec := nk_deaths_per_sec m;
       sk_daily_increment := Some (calculate_daily_increment sk);
       nk_daily_increment := nk_daily_increment m |}
  else if String.eqb (lower country) "north_korea" then
    let nk := update_country (north_korea_data m) new_data in
    let rates := calculate_birth_death_rates_per_second nk in
    {| connected_clients := connected_clients m;
       last_update_time := last_update_time m;
       last_resync_time := last_resync_time m;
       sk_population := sk_population m;
       nk_population := nk_population m;
       recent_events := recent_events m;
       sk_births_today := sk_births_today m;
       sk_deaths_today := sk_deaths_today m;
       nk_births_today := nk_births_today m;
       nk_deaths_today := nk_deaths_today m;
       current_day := current_day m;
       south_korea_data := south_korea_data m;
       north_korea_data := nk;
       sk_births_per_sec := sk_births_per_sec m;
       sk_deaths_per_sec := sk_deaths_per_sec m;
       nk_births_per_sec := fst rates;
       nk_deaths_per_sec := snd rates;
       sk_daily_increment := sk_daily_increment m;
       nk_daily_increment := Some (calculate_daily_increment nk) |}
  else m.

(** ** A manager instance *)

Definition m0 : PopulationManager := init_manager (inject_Z 1760000000) (inject_Z 1760000000) 0.

(** ** Binary64 evaluation of lines 226-236

    Python floats are IEEE binary64 with round-to-nearest-even; this module
    evaluates the population expression with the pure reference
    implementation [SpecFloat] to check that rounding does not change the
    truncated result at a given instant. *)
Module Binary64.

Definition prec : Z := 53.
Definition emax : Z := 1024.

Definition of_Z (z : Z) : spec_float := binary_normalize prec emax z 0 false.
Definition add : spec_float -> spec_float -> spec_float := SFadd prec emax.
Definition sub : spec_float -> spec_float -> spec_float := SFsub prec emax.
Definition mul : spec_float -> spec_float -> spec_float := SFmul prec emax.
Definition div : spec_float -> spec_float -> spec_float := SFdiv prec emax.

(** [int(x)]: truncation toward zero; it raises on infinities and NaN. *)
Definition to_int (x : spec_float) : option Z :=
  match x with
  | S754_zero _ => Some 0
  | S754_finite s mx ex =>
      Some (cond_Zopp s (if 0 <=? ex then Z.pos mx * 2 ^ ex else Z.pos mx / 2 ^ (- ex)))
  | _ => None
  end.

(** A float literal [n / 10^k] is the correctly rounded quotient. *)
Definition literal (n d : Z) : spec_float := div (of_Z n) (of_Z d).

(** Line 236 for a country with integer [base_population] and float
    [annual_growth_rate], at [time.time()] = [current_time]. *)
Definition country_population (base : Z) (rate current_time : spec_float) : option Z :=
  let base_timestamp := of_Z 1704067200 in
  let time_elapsed_seconds := sub current_time base_timestamp in
  let time_elapsed_days := div time_elapsed_seconds (of_Z seconds_per_day) in
  let increment :=
    mul (mul (div rate (of_Z 100)) (of_Z base)) (div time_elapsed_days (literal 36525 100)) in
  to_int (add (of_Z base) increment).

End Binary64.

(** ** Definitions used by the properties *)

(** An administrative update of South Korea's [date] and [year] only. *)
Definition rebase_2025 : UpdateData := {|
  ud_population := None; ud_year := Some 2025; ud_date := Some "2025-01-01T00:00:00Z"%string;
  ud_births := None; ud_deaths := None; ud_growth_rate := None |}.

(** The per-day counters of a snapshot. *)
Definition day_counts (st : PopulationState) : Z * Z * Z * Z :=
  (st_sk_births_today st, st_sk_deaths_today st, st_nk_births_today st, st_nk_deaths_today st).

(** A growth-rate-only update of South Korea. *)
Definition growth_only : UpdateData := {|
  ud_population := None; ud_year := None; ud_date := None;
  ud_births := None; ud_deaths := None; ud_growth_rate := Some (-3 # 10)%Q |}.

(** C2 (as stated): [births_today = floor(annual_births * day_fraction / 365.25)]
    with [day_fraction = seconds_since_midnight_kst / 86400], and the same
    for deaths. *)
Definition C2_statement : Prop :=
  forall m t date_us secs_us,
    let st := fst (calculate_current_population m t date_us secs_us) in
    let day_fraction := (inject_Z (seconds_since_midnight_kst st) / 86400)%Q in
    st_sk_births_today st
      = Qfloor (inject_Z (annual_births (south_korea_data m)) * day_fraction / (36525 # 100))
    /\ st_sk_deaths_today st
      = Qfloor (inject_Z (annual_deaths (south_korea_data m)) * day_fraction / (36525 # 100)).

(** The elapsed-years factor of line 233. *)
Definition elapsed_years (t : Q) : Q :=
  ((t - base_timestamp) / inject_Z seconds_per_day / days_per_year)%Q.

(** C4 (as stated, in its weakest, non-strict reading), for South Korea. *)
Definition C4_statement : Prop :=
  forall m t1 t2 date1 secs1 date2 secs2, (t1 <= t2)%Q ->
    let p1 := south_korea_population (fst (calculate_current_population m t1 date1 secs1)) in
    let p2 := south_korea_population (fst (calculate_current_population m t2 date2 secs2)) in
    ((0 < annual_growth_rate (south_korea_data m))%Q -> p1 <= p2) /\
    ((annual_growth_rate (south_korea_data m) < 0)%Q -> p2 <= p1).

(** An admin update that [update_base_data] accepts as is: a negative
    [population] with a positive growth rate. *)
Definition negative_base : UpdateData := {|
  ud_population := Some (-1000000); ud_year := None; ud_date := None;
  ud_births := None; ud_deaths := None; ud_growth_rate := Some 1%Q |}.

(** C8 (as stated): before the epoch the populations are below the base
    populations. *)
Definition C8_statement : Prop :=
  forall m t date_us secs_us, (t < base_timestamp)%Q ->
    let st := fst (calculate_current_population m t date_us secs_us) in
    south_korea_population st < base_population (south_korea_data m) /\
    north_korea_population st < base_population (north_korea_data m).

(** Timestamps of the tick messages flagged [is_resync], in order. *)
Definition resync_times (outs : list (TickMessage * list Client)) : list Q :=
  map msg_timestamp (filter msg_is_resync (map fst outs)).

(** Each element at least [resync_interval] after the one before it. *)
Fixpoint spaced (prev : Q) (l : list Q) : Prop :=
  match l with
  | [] => True
  | x :: l' => (prev + 30 <= x)%Q /\ spaced x l'
  end.

(** The flag of each message from the timestamps alone: [ref] is the
    timestamp of the last flagged message (initially [last_resync_time]). *)
Fixpoint resync_flags (ref : Q) (ts : list Q) : list bool :=
  match ts with
  | [] => []
  | t :: ts' =>
      let b := Qle_bool resync_interval (t - ref) in
      b :: resync_flags (if b then t else ref) ts'
  end.

(** C5 (as stated): resync messages are at least 30 s apart, and every
    60-second window during which the loop ticks every second contains a
    message flagged [is_resync]. *)
Definition C5_statement : Prop :=
  (forall m evs l1 a l2 b l3,
     resync_times (snd (run m evs)) = l1 ++ a :: l2 ++ b :: l3 -> (a + 30 <= b)%Q) /\
  (forall m evs (a : Q),
     (forall k, (k < 60)%nat ->
        exists i, In (EvTick i) evs /\ tick_time i = (a + inject_Z (Z.of_nat k))%Q) ->
     exists o, In o (snd (run m evs)) /\
       (a <= msg_timestamp (fst o) < a + 60)%Q /\ msg_is_resync (fst o) = true).

(** Sixty-one loop iterations, one per second from [a], all sends succeeding. *)
Definition ticks_every_second (a : Q) (n : nat) : list Event :=
  map (fun k => EvTick (mkTickInput (a + inject_Z (Z.of_nat k))%Q 0 0 0 (fun _ => false)))
      (seq 0 n).

(** A run with one viewer and ticks at 0, 10, 40, 45 and 75 s after the
    manager's creation: the messages at 40 and 75 are flagged. *)
Definition one_viewer_run : list Event :=
  [EvConnect 7%nat] ++
  map (fun k => EvTick (mkTickInput (inject_Z (1760000000 + k)) 0 0 0 (fun _ => false)))
      [0; 10; 40; 45; 75].

(** C6 over the live send loop: a client that is connected, whose send
    succeeds and which no other task removes during the tick receives the
    tick's message. *)
Definition C6_statement : Prop :=
  forall m st clock (fails : Client -> bool) (rd : nat -> list Client) c,
    In c (connected_clients m) -> fails c = false -> (forall k, ~ In c (rd k)) ->
    exists msg ds, snd (broadcast_update_live m st clock fails rd) = Some (msg, ds) /\ In c ds.

(** Three viewers; the send to viewer [1] fails and its endpoint's
    [finally] removes it while that send is pending. *)
Definition three_viewers : PopulationManager := set_clients m0 [1%nat; 2%nat; 3%nat].

Definition viewer_1_leaves (k : nat) : list Client := if Nat.eqb k 0 then [1%nat] else [].

Definition removes (ds : list Client) (l : list Client) : list Client :=
  fold_left (fun acc d => list_remove d acc) ds l.

(** Two viewers; the send to viewer [1] fails in the first tick. *)
Definition two_viewers : PopulationManager := add_client (add_client m0 1%nat) 2%nat.

Definition tick_fail_1 : TickInput :=
  mkTickInput (inject_Z 1760000001) 0 0 0 (fun c => Nat.eqb c 1).

Definition later_ticks : list Event :=
  [EvTick (mkTickInput (inject_Z 1760000002) 0 0 0 (fun _ => false));
   EvConnect 3%nat;
   EvTick (mkTickInput (inject_Z 1760000003) 0 0 0 (fun _ => false))].

(** Later ticks: viewer [2]'s endpoint ends while the send to it is
    pending, then viewer [3] connects. *)
Definition later_live_ticks : list LiveEvent :=
  [LTick (mkTickInput (inject_Z 1760000002) 0 0 0 (fun _ => false))
         (fun k => if Nat.eqb k 0 then [2%nat] else []);
   LConnect 3%nat;
   LTick (mkTickInput (inject_Z 1760000003) 0 0 0 (fun _ => false)) (fun _ => [])].

(** ** Decimal text of an int ([f"{year}"]) *)

Fixpoint digits_aux (fuel : nat) (n : Z) (acc : string) : string :=
  match fuel with
  | O => acc
  | S f =>
      let acc' := String (digit (n mod 10)) acc in
      if n <? 10 then acc' else digits_aux f (n / 10) acc'
  end.

Definition z_to_string (z : Z) : string :=
  if z <? 0 then String "-" (digits_aux (S (Z.to_nat (Z.log2 (- z)))) (- z) EmptyString)
  else digits_aux (S (Z.to_nat (Z.log2 z))) z EmptyString.

(** ** The admin endpoint [POST /api/admin/update-base-data] (main.py)

    [env_admin_key] is the value of the environment variable
    [ADMIN_UPDATE_KEY], if set.  An [HTTPException] is [HTTPError]; on
    success the endpoint returns the manager after the update and the
    [update_data] dictionary it passed (the response's timestamp is not
    modelled).  [hits_in_window] is the number of earlier requests from
    the same remote address ([get_remote_address]) in the current one-hour
    window of the limiter; every request counts, rejected or not.  From
    the eleventh on, [@limiter.limit("10/hour")] answers 429 through
    [_rate_limit_exceeded_handler] before the endpoint body runs. *)
Inductive AdminResult :=
  | HTTPError (status_code : Z) (detail : string)
  | HTTPOk (m : PopulationManager) (updated_data : UpdateData).

Definition admin_update_base_data (env_admin_key : option string) (hits_in_window : nat)
    (m : PopulationManager) (country : string) (population year : Z) (births deaths : option Z)
    (growth_rate : option Q) (admin_key : option string) : AdminResult :=
  if (10 <=? hits_in_window)%nat then HTTPError 429 "Rate limit exceeded: 10 per 1 hour" else
  let expected_admin_key := dict_get env_admin_key "admin-secret-key"%string in
  let key_ok := match admin_key with Some k => String.eqb k expected_admin_key | None => false end in
  if negb key_ok then HTTPError 401 "Invalid admin key"
  else if negb (existsb (String.eqb (lower country)) ["south_korea"; "north_korea"]%string)
  then HTTPError 400 "Country must be 'south_korea' or 'north_korea'"
  else
    let update_data := {|
      ud_population := Some population;
      ud_year := Some year;
      ud_date := Some (z_to_string year ++ "-01-01T00:00:00Z")%string;
      ud_births := births;
      ud_deaths := deaths;
      ud_growth_rate := growth_rate |} in
    HTTPOk (update_base_data m (lower country) update_data) update_data.

(** [base_date] is January 1st of [base_year], as the admin endpoint writes it. *)
Definition date_matches_year (d : CountryData) : Prop :=
  base_date d = (z_to_string (base_year d) ++ "-01-01T00:00:00Z")%string.

(** ** Reading an ["HH:MM:SS"] text back *)

Definition digit_value (c : ascii) : option Z :=
  let n := nat_of_ascii c in
  if (48 <=? n)%nat && (n <=? 57)%nat then Some (Z.of_nat n - 48) else None.

Definition parse_hms (s : string) : option Z :=
  match s with
  | String h1 (String h2 (String c1 (String m1 (String m2 (String c2 (String s1 (String s2 EmptyString))))))) =>
      if Ascii.eqb c1 ":" && Ascii.eqb c2 ":" then
        match digit_value h1, digit_value h2, digit_value m1, digit_value m2,
              digit_value s1, digit_value s2 with
        | Some a, Some b, Some c, Some d, Some e, Some f =>
            Some ((10 * a + b) * 3600 + (10 * c + d) * 60 + (10 * e + f))
        | _, _, _, _, _, _ => None
        end
      else None
  | _ => None
  end.

(** ** Invariants of the manager *)

(** The per-second rates and daily increments are those of the current data. *)
Definition derived_consistent (m : PopulationManager) : Prop :=
  (sk_births_per_sec m, sk_deaths_per_sec m)
    = calculate_birth_death_rates_per_second (south_korea_data m) /\
  (nk_births_per_sec m, nk_deaths_per_sec m)
    = calculate_birth_death_rates_per_second (north_korea_data m) /\
  (forall x, sk_daily_increment m = Some x -> x = calculate_daily_increment (south_korea_data m)) /\
  (forall x, nk_daily_increment m = Some x -> x = calculate_daily_increment (north_korea_data m)).

(** Handles of the [EvConnect] events of a run. *)
Fixpoint connects (evs : list Event) : list Client :=
  match evs with
  | [] => []
  | EvConnect c :: evs' => c :: connects evs'
  | _ :: evs' => connects evs'
  end.

(** The fields that only [__init__] and [update_base_data] write. *)
Definition same_data (m m' : PopulationManager) : Prop :=
  south_korea_data m' = south_korea_data m /\
  north_korea_data m' = north_korea_data m /\
  sk_births_per_sec m' = sk_births_per_sec m /\
  sk_deaths_per_sec m' = sk_deaths_per_sec m /\
  nk_births_per_sec m' = nk_births_per_sec m /\
  nk_deaths_per_sec m' = nk_deaths_per_sec m /\
  sk_daily_increment m' = sk_daily_increment m /\
  nk_daily_increment m' = nk_daily_increment m /\
  recent_events m' = recent_events m.

(** The states of the global [population_manager] of main.py: created at
    import, then changed by the broadcast loop and the WebSocket endpoint
    ([run]), by the REST endpoints' calls of [calculate_current_population],
    and by accepted admin updates. *)
Inductive reachable : PopulationManager -> Prop :=
  | reach_init t_update t_resync now_us :
      reachable (init_manager t_update t_resync now_us)
  | reach_run m evs :
      reachable m -> reachable (fst (run m evs))
  | reach_snapshot m t date_us secs_us :
      reachable m -> reachable (snd (calculate_current_population m t date_us secs_us))
  | reach_admin m env hits country population year births deaths growth_rate admin_key m' u :
      reachable m ->
      admin_update_base_data env hits m country population year births deaths growth_rate admin_key
        = HTTPOk m' u ->
      reachable m'.

(** [1.0 / rate]: [ZeroDivisionError] on a zero rate. *)
Definition py_recip (q : Q) : option Q :=
  if Qeq_bool q 0 then None else Some (1 / q)%Q.

(** The ["expected_integer_changes"] of [/api/realtime/precise] (main.py
    lines 229-238), before [round(_, 1)]: seconds per birth and per death of
    each country, or [None] when a division raises. *)
Definition expected_integer_changes (m : PopulationManager) : option ((Q * Q) * (Q * Q)) :=
  match py_recip (sk_births_per_sec m), py_recip (nk_births_per_sec m),
        py_recip (sk_deaths_per_sec m), py_recip (nk_deaths_per_sec m) with
  | Some a, Some b, Some c, Some d => Some ((a, b), (c, d))
  | _, _, _, _ => None
  end.

(** What an accepted admin update writes into the selected country's data
    [d], which becomes [d']. *)
Definition admin_fields (population year : Z) (births deaths : option Z)
    (growth_rate : option Q) (d d' : CountryData) : Prop :=
  name d' = name d /\
  base_population d' = population /\
  base_year d' = year /\
  date_matches_year d' /\
  annual_births d' = dict_get births (annual_births d) /\
  annual_deaths d' = dict_get deaths (annual_deaths d) /\
  annual_growth_rate d' = dict_get growth_rate (annual_growth_rate d).

(** The descriptive fields of a [CountryData], sent by [get_static_data]
    and never written after [__init__]. *)
Definition static_fields (d : CountryData) : string * Q * Q * Q * Q * string :=
  (name d, fertility_rate d, life_expectancy d, birth_rate d, death_rate d, data_source d).

(** One entry of [/api/validation] (main.py lines 351-368), before
    [round(_, 2)]: the growth rate from the crude rates, the difference from
    [annual_growth_rate], and ["validates"]. *)
Definition validate_country (d : CountryData) : Q * Q * bool :=
  let calculated_growth_percent := ((birth_rate d - death_rate d) / 10)%Q in
  let actual_growth_rate := annual_growth_rate d in
  let difference := Qabs (calculated_growth_percent - actual_growth_rate) in
  (calculated_growth_percent, difference, negb (Qle_bool 1 difference)).

(** * Properties *)

(** ** Concrete evaluations *)

Example nk_births_init : annual_births north_korea_init = 342829.
Proof. reflexivity. Qed.

Example nk_deaths_init : annual_deaths north_korea_init = 238941.
Proof. reflexivity. Qed.

Example py_int_neg : py_int (-(7 # 2))%Q = -3.
Proof. reflexivity. Qed.

Example sk_at_epoch : country_population south_korea_init base_timestamp = 51628117.
Proof. reflexivity. Qed.

Example sk_one_year :
  country_population south_korea_init (base_timestamp + inject_Z 31557600)%Q = 51519697.
Proof. reflexivity. Qed.

Example secs_kst_midnight : get_seconds_since_midnight_kst (15 * 3600 * us_per_s) = 0.
Proof. reflexivity. Qed.

Example korea_time_example : korea_time_hms ((3 * 3600 + 4 * 60 + 5) * us_per_s) = "12:04:05"%string.
Proof. reflexivity. Qed.


(** ** Truncation *)

Lemma py_int_spec (q : Q) :
  py_int q = if 0 <=? Qnum q then Qfloor q else Qceiling q.
Proof.
  destruct q as [n d]; unfold py_int, Qceiling, Qfloor; simpl.
  destruct (Z.leb_spec 0 n) as [Hn | Hn].
  - apply Z.quot_div_nonneg; lia.
  - replace n with (- (- n)) at 1 by lia.
    rewrite Z.quot_opp_l by lia.
    rewrite Z.quot_div_nonneg by lia. reflexivity.
Qed.

Lemma Qnum_nonneg_iff (q : Q) : (0 <= q)%Q <-> 0 <= Qnum q.
Proof. destruct q as [n d]; unfold Qle; simpl; lia. Qed.

Lemma py_int_le (q1 q2 : Q) : (q1 <= q2)%Q -> py_int q1 <= py_int q2.
Proof.
  intro H; rewrite !py_int_spec.
  destruct (Z.leb_spec 0 (Qnum q1)) as [H1 | H1];
  destruct (Z.leb_spec 0 (Qnum q2)) as [H2 | H2].
  - now apply Qfloor_resp_le.
  - exfalso. apply Qnum_nonneg_iff in H1.
    assert (0 <= q2)%Q by (eapply Qle_trans; eassumption).
    apply Qnum_nonneg_iff in H0; lia.
  - apply Z.le_trans with 0.
    + change 0 with (Qceiling (inject_Z 0)).
      apply Qceiling_resp_le. destruct q1 as [n d]; unfold Qle; simpl in *; lia.
    + change 0 with (Qfloor (inject_Z 0)).
      apply Qfloor_resp_le. now apply Qnum_nonneg_iff.
  - now apply Qceiling_resp_le.
Qed.

Lemma py_int_inject_Z (z : Z) : py_int (inject_Z z) = z.
Proof. unfold py_int; simpl. apply Z.quot_1_r. Qed.

(** Anything at or above an integer truncates at or above it (for a
    non-negative integer). *)
Lemma py_int_ge_int (q : Q) (b : Z) : 0 <= b -> (inject_Z b <= q)%Q -> b <= py_int q.
Proof.
  intros Hb Hq. rewrite <- (py_int_inject_Z b) at 1. now apply py_int_le.
Qed.

(** For a non-negative value [int(x)] is [floor(x)]. *)
Lemma py_int_floor (q : Q) : (0 <= q)%Q -> py_int q = Qfloor q.
Proof.
  intro H. apply Qnum_nonneg_iff in H. rewrite py_int_spec.
  destruct (Z.leb_spec 0 (Qnum q)); [reflexivity | lia].
Qed.

(** ** Shape of a tick *)

Lemma tick_some (m : PopulationManager) (i : TickInput) m' msg ds :
  tick m i = (m', Some (msg, ds)) ->
  let st := fst (calculate_current_population m (tick_time i) (tick_date_us i) (tick_secs_us i)) in
  msg_timestamp msg = timestamp st /\
  msg_south_korea_population msg = south_korea_population st /\
  msg_north_korea_population msg = north_korea_population st /\
  msg_total_population msg = total_population st.
Proof.
  unfold tick, broadcast_update; simpl.
  destruct (connected_clients _); [discriminate|].
  destruct (send_all _ _). intro H; inversion H; subst; simpl; auto.
Qed.

(** ** Updates *)

Ltac solve_update :=
  unfold update_base_data;
  repeat match goal with
  | |- context [String.eqb ?a ?b] => destruct (String.eqb_spec a b)
  end; simpl; intuition (try congruence).

(** * Claims *)

(** C1: the population of each country returned by
    [calculate_current_population] at time [t] is
    [int(base_population + (annual_growth_rate/100) * base_population * (elapsed_days / 365.25))]
    with [elapsed_days = (t - 2024-01-01T00:00:00Z) / 86400]; it depends on
    the country data only through [base_population] and
    [annual_growth_rate], so never on [base_date] or [base_year]. *)
Theorem calculate_current_population_formula :
  (forall m t date_us secs_us,
     let st := fst (calculate_current_population m t date_us secs_us) in
     let elapsed_days := ((t - inject_Z 1704067200) / inject_Z 86400)%Q in
     let sk := south_korea_data m in
     let nk := north_korea_data m in
     south_korea_population st =
       py_int (inject_Z (base_population sk)
               + annual_growth_rate sk / 100 * inject_Z (base_population sk)
                 * (elapsed_days / (36525 # 100)))%Q /\
     north_korea_population st =
       py_int (inject_Z (base_population nk)
               + annual_growth_rate nk / 100 * inject_Z (base_population nk)
                 * (elapsed_days / (36525 # 100)))%Q) /\
  (forall m1 m2 t date1 secs1 date2 secs2,
     base_population (south_korea_data m1) = base_population (south_korea_data m2) ->
     annual_growth_rate (south_korea_data m1) = annual_growth_rate (south_korea_data m2) ->
     base_population (north_korea_data m1) = base_population (north_korea_data m2) ->
     annual_growth_rate (north_korea_data m1) = annual_growth_rate (north_korea_data m2) ->
     let st1 := fst (calculate_current_population m1 t date1 secs1) in
     let st2 := fst (calculate_current_population m2 t date2 secs2) in
     south_korea_population st1 = south_korea_population st2 /\
     north_korea_population st1 = north_korea_population st2).
Proof.
  split.
  - intros m t date_us secs_us; simpl. split; reflexivity.
  - intros m1 m2 t date1 secs1 date2 secs2 Hb1 Hr1 Hb2 Hr2; simpl.
    unfold country_population, growth_increment.
    rewrite Hb1, Hr1, Hb2, Hr2. split; reflexivity.
Qed.

Lemma calculate_current_population_formula_witness :
  let m2 := update_base_data m0 "south_korea" rebase_2025 in
  let t := (base_timestamp + inject_Z 31557600)%Q in
  base_date (south_korea_data m2) <> base_date (south_korea_data m0) /\
  base_population (south_korea_data m0) = base_population (south_korea_data m2) /\
  annual_growth_rate (south_korea_data m0) = annual_growth_rate (south_korea_data m2) /\
  base_population (north_korea_data m0) = base_population (north_korea_data m2) /\
  annual_growth_rate (north_korea_data m0) = annual_growth_rate (north_korea_data m2) /\
  south_korea_population (fst (calculate_current_population m0 t 0 0)) =
  south_korea_population (fst (calculate_current_population m2 t 0 0)).
Proof.
  intros m2 t.
  split; [vm_compute; discriminate|].
  split; [reflexivity|]. split; [reflexivity|]. split; [reflexivity|]. split; [reflexivity|].
  apply (proj2 calculate_current_population_formula m0 m2 t 0 0 0 0);
    reflexivity.
Defined.

(** C9: in every snapshot returned by [calculate_current_population] and in
    every tick message of any run, [total_population] is the sum of the two
    country populations of the same snapshot. *)
Theorem total_population_is_sum :
  (forall m t date_us secs_us,
     let st := fst (calculate_current_population m t date_us secs_us) in
     total_population st = south_korea_population st + north_korea_population st) /\
  (forall m evs,
     Forall (fun o : TickMessage * list Client =>
               msg_total_population (fst o)
               = msg_south_korea_population (fst o) + msg_north_korea_population (fst o))
            (snd (run m evs))).
Proof.
  split.
  - intros; reflexivity.
  - intros m evs; revert m; induction evs as [|e evs IH]; intro m; simpl; [constructor|].
    destruct e as [i | c | c]; [| apply IH | apply IH].
    destruct (tick m i) as [m1 [[msg ds]|]] eqn:Ht;
      destruct (run m1 evs) as [m2 outs] eqn:Hr; simpl.
    + constructor.
      * apply tick_some in Ht as (_ & Hs & Hn & Htot). simpl.
        rewrite Hs, Hn, Htot. reflexivity.
      * specialize (IH m1); rewrite Hr in IH; exact IH.
    + specialize (IH m1); rewrite Hr in IH; exact IH.
Qed.

(** C10: for a country whose lowercase form is neither ["south_korea"] nor
    ["north_korea"], [update_base_data] returns the manager unchanged. *)
Theorem update_base_data_unknown_country (m : PopulationManager) (country : string)
    (new_data : UpdateData) :
  lower country <> "south_korea"%string ->
  lower country <> "north_korea"%string ->
  update_base_data m country new_data = m.
Proof. intros H1 H2; solve_update. Qed.

Lemma update_base_data_unknown_country_witness :
  lower "Japan" <> "south_korea"%string /\ lower "Japan" <> "north_korea"%string /\
  update_base_data m0 "Japan" rebase_2025 = m0.
Proof.
  split; [vm_compute; discriminate|]. split; [vm_compute; discriminate|].
  apply update_base_data_unknown_country; vm_compute; discriminate.
Defined.

(** C7: a field omitted from [new_data] ([births], [deaths],
    [growth_rate], [date]) is left unchanged in both countries' data; an
    update for one country leaves the other country's data unchanged; and an
    update that omits [births] and [deaths] (for instance one supplying only
    [growth_rate]) leaves every later [births_today] / [deaths_today]
    output unchanged. *)
Theorem update_base_data_frame (m : PopulationManager) (country : string)
    (new_data : UpdateData) :
  let m' := update_base_data m country new_data in
  (ud_births new_data = None ->
     annual_births (south_korea_data m') = annual_births (south_korea_data m) /\
     annual_births (north_korea_data m') = annual_births (north_korea_data m)) /\
  (ud_deaths new_data = None ->
     annual_deaths (south_korea_data m') = annual_deaths (south_korea_data m) /\
     annual_deaths (north_korea_data m') = annual_deaths (north_korea_data m)) /\
  (ud_growth_rate new_data = None ->
     annual_growth_rate (south_korea_data m') = annual_growth_rate (south_korea_data m) /\
     annual_growth_rate (north_korea_data m') = annual_growth_rate (north_korea_data m)) /\
  (ud_date new_data = None ->
     base_date (south_korea_data m') = base_date (south_korea_data m) /\
     base_date (north_korea_data m') = base_date (north_korea_data m)) /\
  (lower country = "south_korea"%string -> north_korea_data m' = north_korea_data m) /\
  (lower country = "north_korea"%string -> south_korea_data m' = south_korea_data m) /\
  (ud_births new_data = None -> ud_deaths new_data = None ->
     forall t date_us secs_us,
       day_counts (fst (calculate_current_population m' t date_us secs_us))
       = day_counts (fst (calculate_current_population m t date_us secs_us))).
Proof.
  simpl. unfold update_base_data.
  destruct (String.eqb_spec (lower country) "south_korea") as [Hs | Hs];
  [| destruct (String.eqb_spec (lower country) "north_korea") as [Hn | Hn]];
  simpl; repeat split; intros;
  repeat match goal with H : ?x = None |- _ => rewrite H end;
  try reflexivity; try congruence.
Qed.

Lemma update_base_data_frame_witness :
  let m' := update_base_data m0 "South_Korea" growth_only in
  ud_births growth_only = None /\ ud_deaths growth_only = None /\
  annual_growth_rate (south_korea_data m') = (-3 # 10)%Q /\
  day_counts (fst (calculate_current_population m' base_timestamp 0 (12 * 3600 * us_per_s)))
  = day_counts (fst (calculate_current_population m0 base_timestamp 0 (12 * 3600 * us_per_s))) /\
  north_korea_data m' = north_korea_data m0.
Proof.
  intro m'.
  split; [reflexivity|]. split; [reflexivity|]. split; [reflexivity|].
  destruct (update_base_data_frame m0 "South_Korea" growth_only)
    as (_ & _ & _ & _ & Hsk & _ & Hcounts).
  split.
  - exact (Hcounts eq_refl eq_refl _ _ _).
  - exact (Hsk eq_refl).
Defined.

(** C2 fails for a negative [annual_births] (the admin endpoint accepts
    any integer): at noon KST with [births = -1] the code's [int(...)]
    truncates [-0.00136...] to [0], while [floor] gives [-1]. *)
Lemma births_today_floor_counterexample : ~ C2_statement.
Proof.
  intro H.
  set (m := update_base_data m0 "south_korea" {|
    ud_population := None; ud_year := None; ud_date := None;
    ud_births := Some (-1); ud_deaths := None; ud_growth_rate := None |}).
  destruct (H m base_timestamp 0 (3 * 3600 * us_per_s)) as [Hb _].
  vm_compute in Hb. discriminate.
Qed.

Lemma seconds_since_midnight_range (now_us : Z) :
  0 <= get_seconds_since_midnight_kst now_us < 86400.
Proof.
  unfold get_seconds_since_midnight_kst, seconds_per_day, us_per_s.
  pose proof (Z.mod_pos_bound (now_us + kst_offset_us) (24 * 60 * 60 * 1000000)) as H.
  split; [apply Z.div_pos|apply Z.div_lt_upper_bound]; lia.
Qed.

Lemma count_today_floor (a s : Z) :
  0 <= a -> 0 <= s ->
  count_today a s = Qfloor (inject_Z a * (inject_Z s / 86400) / (36525 # 100))%Q.
Proof.
  intros Ha Hs. unfold count_today. apply py_int_floor.
  unfold Qdiv. repeat apply Qmult_le_0_compat.
  - unfold Qle; simpl; lia.
  - unfold Qle; simpl; lia.
  - apply Qinv_le_0_compat. discriminate.
  - apply Qinv_le_0_compat. discriminate.
Qed.

(** C2 (amended): [births_today] / [deaths_today] are
    [int(annual_count * day_fraction / 365.25)], a truncation toward zero,
    with [day_fraction = seconds_since_midnight_kst / 86400] and
    [seconds_since_midnight_kst] the whole seconds since midnight in UTC+9
    of the clock reading; for a non-negative annual count this is
    [floor(annual_count * day_fraction / 365.25)]. *)
Theorem births_deaths_today_formula (m : PopulationManager) (t : Q) (date_us secs_us : Z) :
  let st := fst (calculate_current_population m t date_us secs_us) in
  let secs := seconds_since_midnight_kst st in
  let day_fraction := (inject_Z secs / 86400)%Q in
  let sk := south_korea_data m in
  let nk := north_korea_data m in
  secs = ((secs_us + 9 * 3600 * 1000000) mod (86400 * 1000000)) / 1000000 /\
  0 <= secs < 86400 /\
  st_sk_births_today st = py_int (inject_Z (annual_births sk) * day_fraction / (36525 # 100))%Q /\
  st_sk_deaths_today st = py_int (inject_Z (annual_deaths sk) * day_fraction / (36525 # 100))%Q /\
  st_nk_births_today st = py_int (inject_Z (annual_births nk) * day_fraction / (36525 # 100))%Q /\
  st_nk_deaths_today st = py_int (inject_Z (annual_deaths nk) * day_fraction / (36525 # 100))%Q /\
  (0 <= annual_births sk ->
     st_sk_births_today st = Qfloor (inject_Z (annual_births sk) * day_fraction / (36525 # 100))%Q) /\
  (0 <= annual_deaths sk ->
     st_sk_deaths_today st = Qfloor (inject_Z (annual_deaths sk) * day_fraction / (36525 # 100))%Q) /\
  (0 <= annual_births nk ->
     st_nk_births_today st = Qfloor (inject_Z (annual_births nk) * day_fraction / (36525 # 100))%Q) /\
  (0 <= annual_deaths nk ->
     st_nk_deaths_today st = Qfloor (inject_Z (annual_deaths nk) * day_fraction / (36525 # 100))%Q).
Proof.
  pose proof (seconds_since_midnight_range secs_us) as Hr.
  simpl. repeat split; try reflexivity; try lia; intro H;
  apply count_today_floor; lia.
Qed.

Lemma births_deaths_today_formula_witness :
  0 <= annual_births (south_korea_data m0) /\
  st_sk_births_today (fst (calculate_current_population m0 base_timestamp 0 (3 * 3600 * us_per_s)))
  = Qfloor (inject_Z 216215 * (inject_Z 43200 / 86400) / (36525 # 100))%Q.
Proof.
  split; [vm_compute; discriminate|].
  destruct (births_deaths_today_formula m0 base_timestamp 0 (3 * 3600 * us_per_s))
    as (_ & _ & _ & _ & _ & _ & Hb & _).
  exact (Hb ltac:(vm_compute; discriminate)).
Defined.

(** C3 (as stated) fails: with South Korea's initial data, at
    [now = epoch + 365.25 days] the population is [51519697], not
    [51520712]; the increment is [-0.0021 * 51628117 = -108419.0457...].
    The binary64 evaluation of the same expression gives the same integer. *)
Lemma south_korea_one_year_counterexample :
  south_korea_population
    (fst (calculate_current_population m0 (base_timestamp + inject_Z 31557600)%Q 0 0))
  <> 51520712 /\
  Binary64.country_population 51628117 (Binary64.literal (-21) 100) (Binary64.of_Z 1735624800)
  = Some 51519697.
Proof. split; [vm_compute; discriminate | vm_compute; reflexivity]. Qed.

(** C3 (amended): for South Korea's constants, at [now = epoch + 365.25 days]
    the population is [51519697], the truncation of
    [51628117 + (-0.21/100) * 51628117 * 1 = 51519697.954...]. *)
Theorem south_korea_one_year (t_update t_resync : Q) (now_us date_us secs_us : Z) :
  south_korea_population
    (fst (calculate_current_population (init_manager t_update t_resync now_us)
            (base_timestamp + inject_Z (36525 * 864))%Q date_us secs_us))
  = 51519697.
Proof. vm_compute. reflexivity. Qed.

(** ** Sign and monotonicity of the growth increment *)

Lemma growth_increment_factor (d : CountryData) (t : Q) :
  growth_increment d t = (annual_growth_rate d / 100 * inject_Z (base_population d) * elapsed_years t)%Q.
Proof. reflexivity. Qed.

Lemma elapsed_years_le (t1 t2 : Q) : (t1 <= t2)%Q -> (elapsed_years t1 <= elapsed_years t2)%Q.
Proof.
  intro H; unfold elapsed_years, Qdiv.
  apply Qmult_le_compat_r; [apply Qmult_le_compat_r|].
  - unfold Qminus. apply Qplus_le_compat; [exact H | apply Qle_refl].
  - apply Qinv_le_0_compat; discriminate.
  - apply Qinv_le_0_compat; discriminate.
Qed.

Lemma elapsed_years_neg (t : Q) : (t < base_timestamp)%Q -> (elapsed_years t < 0)%Q.
Proof.
  intro H; unfold elapsed_years, Qdiv.
  assert (Hc : (0 < / inject_Z seconds_per_day * / days_per_year)%Q) by reflexivity.
  rewrite <- Qmult_assoc.
  setoid_replace 0%Q with (0 * (/ inject_Z seconds_per_day * / days_per_year))%Q by reflexivity.
  apply Qmult_lt_r; [exact Hc|]. lra.
Qed.

Lemma rate_factor_sign (r : Q) (b : Z) :
  ((0 <= r)%Q -> 0 <= b -> (0 <= r / 100 * inject_Z b)%Q) /\
  ((r <= 0)%Q -> 0 <= b -> (r / 100 * inject_Z b <= 0)%Q) /\
  ((0 < r)%Q -> 0 < b -> (0 < r / 100 * inject_Z b)%Q).
Proof.
  assert (Hb : forall b, 0 <= b -> (0 <= inject_Z b)%Q) by (intros; unfold Qle; simpl; lia).
  assert (Hb' : forall b, 0 < b -> (0 < inject_Z b)%Q) by (intros; unfold Qlt; simpl; lia).
  assert (Hk : (r / 100 == r * (1 # 100))%Q) by reflexivity.
  rewrite Hk. repeat split; intros.
  - specialize (Hb b H0). nra.
  - specialize (Hb b H0). nra.
  - specialize (Hb' b H0). nra.
Qed.

(** Monotonicity of one country's population in time. *)
Lemma country_population_mono (d : CountryData) (t1 t2 : Q) :
  0 <= base_population d -> (t1 <= t2)%Q ->
  ((0 <= annual_growth_rate d)%Q -> country_population d t1 <= country_population d t2) /\
  ((annual_growth_rate d <= 0)%Q -> country_population d t2 <= country_population d t1).
Proof.
  intros HB Ht.
  destruct (rate_factor_sign (annual_growth_rate d) (base_population d)) as (Hp & Hn & _).
  pose proof (elapsed_years_le t1 t2 Ht) as He.
  unfold country_population; rewrite !growth_increment_factor.
  set (c := (annual_growth_rate d / 100 * inject_Z (base_population d))%Q) in *.
  set (B := inject_Z (base_population d)) in *.
  split; intro Hr; apply py_int_le.
  - specialize (Hp Hr HB). nra.
  - specialize (Hn Hr HB). nra.
Qed.

(** With a negative [base_population] the direction is reversed. *)
Lemma country_population_mono_neg (d : CountryData) (t1 t2 : Q) :
  base_population d < 0 -> (t1 <= t2)%Q ->
  ((0 <= annual_growth_rate d)%Q -> country_population d t2 <= country_population d t1) /\
  ((annual_growth_rate d <= 0)%Q -> country_population d t1 <= country_population d t2).
Proof.
  intros HB Ht.
  assert (HB' : (inject_Z (base_population d) <= 0)%Q) by (unfold Qle; simpl; lia).
  assert (Hk : (annual_growth_rate d / 100 == annual_growth_rate d * (1 # 100))%Q) by reflexivity.
  pose proof (elapsed_years_le t1 t2 Ht) as He.
  unfold country_population; rewrite !growth_increment_factor.
  split; intro Hr; apply py_int_le; rewrite Hk;
    set (r := annual_growth_rate d) in *; set (B := inject_Z (base_population d)) in *.
  - assert (Hc : (r * (1 # 100) * B <= 0)%Q) by nra. nra.
  - assert (Hc : (0 <= r * (1 # 100) * B)%Q) by nra. nra.
Qed.

(** One country's population before the epoch. *)
Lemma country_population_before_epoch (d : CountryData) (t : Q) :
  (t < base_timestamp)%Q ->
  ((0 < annual_growth_rate d)%Q -> 0 <= base_population d ->
     country_population d t <= base_population d) /\
  ((annual_growth_rate d < 0)%Q -> 0 <= base_population d ->
     base_population d <= country_population d t).
Proof.
  intro Ht.
  destruct (rate_factor_sign (annual_growth_rate d) (base_population d)) as (Hp & Hn & _).
  pose proof (elapsed_years_neg t Ht) as He.
  unfold country_population; rewrite !growth_increment_factor.
  set (c := (annual_growth_rate d / 100 * inject_Z (base_population d))%Q) in *.
  split; intros Hr HB.
  - rewrite <- (py_int_inject_Z (base_population d)) at 2. apply py_int_le.
    assert (Hr' : (0 <= annual_growth_rate d)%Q) by lra.
    specialize (Hp Hr' HB). nra.
  - apply py_int_ge_int; [exact HB|].
    assert (Hr' : (annual_growth_rate d <= 0)%Q) by lra.
    specialize (Hn Hr' HB). nra.
Qed.

(** C4 fails for a negative [base_population]: with growth rate [1%]
    the population goes from [-1000000] at the epoch to [-1010000] one
    year later. *)
Lemma population_monotone_counterexample : ~ C4_statement.
Proof.
  intro H.
  destruct (H (update_base_data m0 "south_korea" negative_base)
              base_timestamp (base_timestamp + inject_Z 31557600)%Q 0 0 0 0)
    as [Hinc _].
  - unfold base_timestamp, Qle; simpl; lia.
  - specialize (Hinc ltac:(reflexivity)). vm_compute in Hinc. apply Hinc. reflexivity.
Qed.

(** C4 (amended): holding the country data fixed, for a non-negative
    [base_population], the population of a country is non-decreasing in
    [now] when its growth rate is positive and non-increasing when it is
    negative (not strictly: the truncated value stays constant between
    integer crossings); for a negative [base_population] the directions
    are reversed. *)
Theorem population_monotone (m : PopulationManager) (t1 t2 : Q) (date1 secs1 date2 secs2 : Z) :
  (t1 <= t2)%Q ->
  let st1 := fst (calculate_current_population m t1 date1 secs1) in
  let st2 := fst (calculate_current_population m t2 date2 secs2) in
  let sk := south_korea_data m in
  let nk := north_korea_data m in
  ((0 <= base_population sk ->
     ((0 < annual_growth_rate sk)%Q -> south_korea_population st1 <= south_korea_population st2) /\
     ((annual_growth_rate sk < 0)%Q -> south_korea_population st2 <= south_korea_population st1)) /\
   (base_population sk < 0 ->
     ((0 < annual_growth_rate sk)%Q -> south_korea_population st2 <= south_korea_population st1) /\
     ((annual_growth_rate sk < 0)%Q -> south_korea_population st1 <= south_korea_population st2))) /\
  ((0 <= base_population nk ->
     ((0 < annual_growth_rate nk)%Q -> north_korea_population st1 <= north_korea_population st2) /\
     ((annual_growth_rate nk < 0)%Q -> north_korea_population st2 <= north_korea_population st1)) /\
   (base_population nk < 0 ->
     ((0 < annual_growth_rate nk)%Q -> north_korea_population st2 <= north_korea_population st1) /\
     ((annual_growth_rate nk < 0)%Q -> north_korea_population st1 <= north_korea_population st2))).
Proof.
  intros Ht; simpl.
  split; split; intro HB;
    [ destruct (country_population_mono _ t1 t2 HB Ht) as [Hi Hd]
    | destruct (country_population_mono_neg _ t1 t2 HB Ht) as [Hd Hi]
    | destruct (country_population_mono _ t1 t2 HB Ht) as [Hi Hd]
    | destruct (country_population_mono_neg _ t1 t2 HB Ht) as [Hd Hi] ];
    split; intro Hr; [apply Hi | apply Hd | apply Hd | apply Hi
                     | apply Hi | apply Hd | apply Hd | apply Hi]; lra.
Qed.

Lemma population_monotone_witness :
  (base_timestamp <= base_timestamp + inject_Z 31557600)%Q /\
  0 <= base_population (south_korea_data m0) /\
  (annual_growth_rate (south_korea_data m0) < 0)%Q /\
  south_korea_population
    (fst (calculate_current_population m0 (base_timestamp + inject_Z 31557600)%Q 0 0))
  <= south_korea_population (fst (calculate_current_population m0 base_timestamp 0 0)) /\
  let m1 := update_base_data m0 "south_korea" negative_base in
  base_population (south_korea_data m1) < 0 /\
  (0 < annual_growth_rate (south_korea_data m1))%Q /\
  south_korea_population
    (fst (calculate_current_population m1 (base_timestamp + inject_Z 31557600)%Q 0 0))
  <= south_korea_population (fst (calculate_current_population m1 base_timestamp 0 0)).
Proof.
  assert (Ht : (base_timestamp <= base_timestamp + inject_Z 31557600)%Q)
    by (unfold base_timestamp, Qle; simpl; lia).
  split; [exact Ht|]. split; [vm_compute; discriminate|]. split; [reflexivity|].
  split.
  - destruct (population_monotone m0 base_timestamp (base_timestamp + inject_Z 31557600)%Q 0 0 0 0 Ht)
      as [[Hsk _] _].
    destruct (Hsk ltac:(vm_compute; discriminate)) as [_ Hd].
    exact (Hd ltac:(reflexivity)).
  - intro m1. split; [reflexivity|]. split; [reflexivity|].
    destruct (population_monotone m1 base_timestamp (base_timestamp + inject_Z 31557600)%Q 0 0 0 0 Ht)
      as [[_ Hsk] _].
    destruct (Hsk ltac:(reflexivity)) as [Hd _].
    exact (Hd ltac:(reflexivity)).
Defined.

(** C8 fails for South Korea, whose growth rate is negative: one year
    before the epoch its population is [51736536 > 51628117]. *)
Lemma before_epoch_counterexample : ~ C8_statement.
Proof.
  intro H.
  destruct (H m0 (base_timestamp - inject_Z 31557600)%Q 0 0) as [Hsk _].
  - unfold base_timestamp, Qlt; simpl; lia.
  - vm_compute in Hsk. discriminate.
Qed.

Example south_korea_before_epoch :
  south_korea_population
    (fst (calculate_current_population m0 (base_timestamp - inject_Z 31557600)%Q 0 0)) = 51736536.
Proof. vm_compute. reflexivity. Qed.

(** C8 (amended): for every time strictly before the epoch, each
    country's population is at most its non-negative [base_population]
    when its growth rate is positive, and at least it when its growth rate
    is negative; the base is bounded by [2^53], below which Python's float
    of it is exact. *)
Theorem population_before_epoch (m : PopulationManager) (t : Q) (date_us secs_us : Z) :
  (t < base_timestamp)%Q ->
  let st := fst (calculate_current_population m t date_us secs_us) in
  let sk := south_korea_data m in
  let nk := north_korea_data m in
  ((0 < annual_growth_rate sk)%Q -> 0 <= base_population sk <= 2 ^ 53 ->
     south_korea_population st <= base_population sk) /\
  ((annual_growth_rate sk < 0)%Q -> 0 <= base_population sk <= 2 ^ 53 ->
     base_population sk <= south_korea_population st) /\
  ((0 < annual_growth_rate nk)%Q -> 0 <= base_population nk <= 2 ^ 53 ->
     north_korea_population st <= base_population nk) /\
  ((annual_growth_rate nk < 0)%Q -> 0 <= base_population nk <= 2 ^ 53 ->
     base_population nk <= north_korea_population st).
Proof.
  intro Ht; simpl.
  destruct (country_population_before_epoch (south_korea_data m) t Ht) as [Hs1 Hs2].
  destruct (country_population_before_epoch (north_korea_data m) t Ht) as [Hn1 Hn2].
  repeat split; intros Hr HB; [apply Hs1 | apply Hs2 | apply Hn1 | apply Hn2]; tauto.
Qed.

Lemma population_before_epoch_witness :
  (base_timestamp - inject_Z 31557600 < base_timestamp)%Q /\
  (0 < annual_growth_rate (north_korea_data m0))%Q /\
  0 <= base_population (north_korea_data m0) <= 2 ^ 53 /\
  north_korea_population
    (fst (calculate_current_population m0 (base_timestamp - inject_Z 31557600)%Q 0 0))
  <= base_population (north_korea_data m0).
Proof.
  assert (Ht : (base_timestamp - inject_Z 31557600 < base_timestamp)%Q)
    by (unfold base_timestamp, Qlt; simpl; lia).
  assert (HB : 0 <= base_population (north_korea_data m0) <= 2 ^ 53) by (vm_compute; split; discriminate).
  split; [exact Ht|]. split; [reflexivity|]. split; [exact HB|].
  destruct (population_before_epoch m0 _ 0 0 Ht) as (_ & _ & Hn & _).
  exact (Hn ltac:(reflexivity) HB).
Defined.

(** In binary64 the increment can vanish: one float step ([2^-22] s)
    before the epoch, North Korea's initial data give exactly its
    [base_population]. *)
Example north_korea_float_step_before_epoch :
  Binary64.country_population 25971909 (Binary64.literal 4 10)
    (S754_finite false (1704067200 * 2 ^ 22 - 1) (-22)) = Some 25971909.
Proof. vm_compute. reflexivity. Qed.

(** A NaN [annual_growth_rate] makes [int()] raise. *)
Example nan_growth_rate_raises :
  Binary64.country_population 25971909 S754_nan (Binary64.of_Z 1704067199) = None.
Proof. vm_compute. reflexivity. Qed.

(** ** The resync flag over a run *)

Lemma calculate_keeps (m : PopulationManager) t d s :
  connected_clients (snd (calculate_current_population m t d s)) = connected_clients m /\
  last_resync_time (snd (calculate_current_population m t d s)) = last_resync_time m.
Proof. split; reflexivity. Qed.

Lemma remove_clients_resync (m : PopulationManager) ds :
  last_resync_time (remove_clients m ds) = last_resync_time m.
Proof.
  unfold remove_clients; revert m; induction ds as [|d ds IH]; intro m; simpl; [reflexivity|].
  rewrite IH. unfold remove_client. destruct (existsb _ _); reflexivity.
Qed.

Lemma remove_client_resync (m : PopulationManager) c :
  last_resync_time (remove_client m c) = last_resync_time m.
Proof. unfold remove_client. destruct (existsb _ _); reflexivity. Qed.

(** What one tick does to [last_resync_time]. *)
Lemma tick_resync (m : PopulationManager) (i : TickInput) :
  match tick m i with
  | (m', None) => last_resync_time m' = last_resync_time m
  | (m', Some (msg, _)) =>
      msg_is_resync msg = Qle_bool resync_interval (msg_timestamp msg - last_resync_time m) /\
      last_resync_time m' =
        (if msg_is_resync msg then msg_timestamp msg else last_resync_time m)
  end.
Proof.
  unfold tick, broadcast_update; simpl.
  destruct (connected_clients m) as [|c cs]; [reflexivity|].
  destruct (send_all _ _) as [delivered disconnected]. simpl.
  split; [reflexivity|].
  rewrite remove_clients_resync.
  destruct (Qle_bool _ _); reflexivity.
Qed.

Lemma run_resync_flags (evs : list Event) (m : PopulationManager) :
  let msgs := map fst (snd (run m evs)) in
  map msg_is_resync msgs = resync_flags (last_resync_time m) (map msg_timestamp msgs).
Proof.
  revert m; induction evs as [|e evs IH]; intro m; simpl; [reflexivity|].
  destruct e as [i | c | c].
  - pose proof (tick_resync m i) as Ht.
    destruct (tick m i) as [m1 [[msg ds]|]];
      destruct (run m1 evs) as [m2 outs] eqn:Hr; simpl.
    + destruct Ht as [Hflag Hlast].
      specialize (IH m1); rewrite Hr in IH; simpl in IH.
      rewrite <- Hflag, IH, Hlast. reflexivity.
    + specialize (IH m1); rewrite Hr in IH; simpl in IH. rewrite IH, Ht. reflexivity.
  - exact (IH (add_client m c)).
  - specialize (IH (remove_client m c)). rewrite remove_client_resync in IH. exact IH.
Qed.

Lemma resync_flags_spaced (ref : Q) (ts : list Q) :
  spaced ref (map fst (filter snd (combine ts (resync_flags ref ts)))).
Proof.
  revert ref; induction ts as [|t ts IH]; intro ref; simpl; [exact I|].
  destruct (Qle_bool resync_interval (t - ref)) eqn:Hb; simpl.
  - split; [|apply IH]. apply Qle_bool_iff in Hb. unfold resync_interval in Hb. lra.
  - apply IH.
Qed.

Lemma combine_map_flags (msgs : list TickMessage) :
  map fst (filter snd (combine (map msg_timestamp msgs) (map msg_is_resync msgs)))
  = map msg_timestamp (filter msg_is_resync msgs).
Proof.
  induction msgs as [|x msgs IH]; simpl; [reflexivity|].
  destruct (msg_is_resync x); simpl; rewrite IH; reflexivity.
Qed.

Lemma spaced_pairwise (prev : Q) (l1 : list Q) (a : Q) (l2 : list Q) (b : Q) (l3 : list Q) :
  spaced prev (l1 ++ a :: l2 ++ b :: l3) -> (a + 30 <= b)%Q.
Proof.
  revert prev; induction l1 as [|x l1 IH]; intro prev; simpl.
  - intros [_ H]. revert a H. induction l2 as [|y l2 IH2]; intros a H; simpl in H.
    + tauto.
    + destruct H as [Hy H]. specialize (IH2 y H). lra.
  - intros [_ H]. exact (IH x H).
Qed.

(** C5 fails: while no viewer is connected [broadcast_update] returns
    before building a message, so sixty seconds of ticks send nothing and
    no message is flagged. *)
Lemma resync_window_counterexample : ~ C5_statement.
Proof.
  intros [_ H].
  set (a := inject_Z 1760000100).
  destruct (H m0 (ticks_every_second a 61) a) as (o & Ho & _).
  - intros k Hk. exists (mkTickInput (a + inject_Z (Z.of_nat k))%Q 0 0 0 (fun _ => false)).
    split; [|reflexivity].
    unfold ticks_every_second.
    apply (in_map (fun k => EvTick (mkTickInput (a + inject_Z (Z.of_nat k))%Q 0 0 0 (fun _ => false)))).
    apply in_seq. lia.
  - assert (Hnil : snd (run m0 (ticks_every_second a 61)) = []) by (vm_compute; reflexivity).
    rewrite Hnil in Ho. exact Ho.
Qed.

(** C5 (amended): over any run, the [is_resync] flag of each tick message
    is determined by the message timestamps alone: it is set exactly when
    the timestamp is at least 30 s after the last flagged message (initially
    [last_resync_time]); hence any two flagged messages are at least 30 s
    apart.  A tick with no connected viewer builds no message. *)
Theorem resync_spacing (m : PopulationManager) (evs : list Event) :
  let msgs := map fst (snd (run m evs)) in
  map msg_is_resync msgs = resync_flags (last_resync_time m) (map msg_timestamp msgs) /\
  spaced (last_resync_time m) (resync_times (snd (run m evs))) /\
  (forall l1 a l2 b l3,
     resync_times (snd (run m evs)) = l1 ++ a :: l2 ++ b :: l3 -> (a + 30 <= b)%Q) /\
  (forall i, connected_clients m = [] -> snd (tick m i) = None).
Proof.
  intro msgs.
  assert (Hf : map msg_is_resync msgs = resync_flags (last_resync_time m) (map msg_timestamp msgs))
    by apply run_resync_flags.
  assert (Hs : spaced (last_resync_time m) (resync_times (snd (run m evs)))).
  { unfold resync_times. fold msgs. rewrite <- combine_map_flags, Hf.
    apply resync_flags_spaced. }
  split; [exact Hf|]. split; [exact Hs|]. split.
  - intros l1 a l2 b l3 He. rewrite He in Hs. exact (spaced_pairwise _ _ _ _ _ _ Hs).
  - intros i Hc. unfold tick, broadcast_update; simpl. rewrite Hc. reflexivity.
Qed.

Lemma resync_spacing_witness :
  resync_times (snd (run m0 one_viewer_run)) = [inject_Z 1760000040; inject_Z 1760000075] /\
  (inject_Z 1760000040 + 30 <= inject_Z 1760000075)%Q.
Proof.
  assert (He : resync_times (snd (run m0 one_viewer_run))
               = [] ++ inject_Z 1760000040 :: [] ++ inject_Z 1760000075 :: [])
    by (vm_compute; reflexivity).
  split; [exact He|].
  destruct (resync_spacing m0 one_viewer_run) as (_ & _ & Hp & _).
  exact (Hp _ _ _ _ _ He).
Defined.

(** ** Membership after failed sends *)

Lemma send_all_spec (fails : Client -> bool) (cs : list Client) :
  send_all fails cs = (filter (fun c => negb (fails c)) cs, filter fails cs).
Proof.
  induction cs as [|c cs IH]; simpl; [reflexivity|].
  rewrite IH. destruct (fails c); reflexivity.
Qed.

Lemma list_remove_absent (c : Client) (l : list Client) :
  existsb (Nat.eqb c) l = false -> list_remove c l = l.
Proof.
  induction l as [|x l IH]; simpl; [reflexivity|].
  destruct (Nat.eqb c x); simpl; [discriminate|].
  intro H; rewrite IH; auto.
Qed.

Lemma remove_client_clients (m : PopulationManager) (c : Client) :
  connected_clients (remove_client m c) = list_remove c (connected_clients m).
Proof.
  unfold remove_client. destruct (existsb _ _) eqn:He; [reflexivity|].
  symmetry; now apply list_remove_absent.
Qed.

Lemma remove_clients_clients (m : PopulationManager) (ds : list Client) :
  connected_clients (remove_clients m ds) = removes ds (connected_clients m).
Proof.
  unfold remove_clients, removes; revert m; induction ds as [|d ds IH]; intro m; simpl;
    [reflexivity|].
  rewrite IH, remove_client_clients. reflexivity.
Qed.

Lemma removes_cons_other (ds : list Client) (x : Client) (l : list Client) :
  (forall d, In d ds -> d <> x) -> removes ds (x :: l) = x :: removes ds l.
Proof.
  unfold removes; revert l; induction ds as [|d ds IH]; intros l H; simpl; [reflexivity|].
  destruct (Nat.eqb_spec d x) as [Heq | _].
  - exfalso; exact (H d (or_introl eq_refl) Heq).
  - apply IH. intros d' Hd'; apply H; now right.
Qed.

(** Removing the failed clients one by one leaves exactly the others. *)
Lemma removes_failed (p : Client -> bool) (l : list Client) :
  removes (filter p l) l = filter (fun c => negb (p c)) l.
Proof.
  induction l as [|x l IH]; simpl; [reflexivity|].
  destruct (p x) eqn:Hx; simpl.
  - unfold removes at 1; simpl. rewrite Nat.eqb_refl. exact IH.
  - rewrite removes_cons_other, IH; [reflexivity|].
    intros d Hd ->. apply filter_In in Hd as [_ Hd]. congruence.
Qed.

Lemma broadcast_update_clients (m : PopulationManager) st clock (fails : Client -> bool) :
  connected_clients (fst (broadcast_update m st clock fails))
  = filter (fun c => negb (fails c)) (connected_clients m) /\
  forall msg ds, snd (broadcast_update m st clock fails) = Some (msg, ds) ->
    ds = filter (fun c => negb (fails c)) (connected_clients m).
Proof.
  unfold broadcast_update.
  destruct (connected_clients m) as [|c cs] eqn:Hc; [simpl; split; [exact Hc | discriminate]|].
  set (m1 := if Qle_bool _ _ then _ else m).
  assert (H1 : connected_clients m1 = c :: cs)
    by (unfold m1; destruct (Qle_bool _ _); [exact Hc | exact Hc]).
  rewrite H1, send_all_spec. simpl fst. simpl snd. split.
  - rewrite remove_clients_clients, H1. exact (removes_failed fails (c :: cs)).
  - intros msg ds H; inversion H; reflexivity.
Qed.

Lemma tick_clients (m : PopulationManager) (i : TickInput) :
  connected_clients (fst (tick m i))
  = filter (fun c => negb (tick_send_fails i c)) (connected_clients m) /\
  forall msg ds, snd (tick m i) = Some (msg, ds) ->
    ds = filter (fun c => negb (tick_send_fails i c)) (connected_clients m).
Proof.
  unfold tick; simpl.
  exact (broadcast_update_clients
           (snd (calculate_current_population m (tick_time i) (tick_date_us i) (tick_secs_us i)))
           _ (tick_clock_us i) (tick_send_fails i)).
Qed.

Lemma In_list_remove (x c : Client) (l : list Client) : In x (list_remove c l) -> In x l.
Proof.
  induction l as [|y l IH]; simpl; [tauto|].
  destruct (Nat.eqb c y); simpl; tauto.
Qed.

(** A client that is not a member, and does not connect again, gets nothing. *)
Lemma run_absent (evs : list Event) (m : PopulationManager) (c : Client) :
  ~ In c (connected_clients m) -> ~ In (EvConnect c) evs ->
  Forall (fun o : TickMessage * list Client => ~ In c (snd o)) (snd (run m evs)).
Proof.
  revert m; induction evs as [|e evs IH]; intros m Hm He; simpl; [constructor|].
  assert (He' : ~ In (EvConnect c) evs) by (intro; apply He; now right).
  destruct e as [i | c' | c'].
  - destruct (tick_clients m i) as [Hcl Hds].
    destruct (tick m i) as [m1 out] eqn:Ht. simpl in Hcl, Hds.
    assert (Hm1 : ~ In c (connected_clients m1))
      by (rewrite Hcl; intro Hin; apply filter_In in Hin; tauto).
    specialize (IH m1 Hm1 He').
    destruct (run m1 evs) as [m2 outs]; simpl in *.
    destruct out as [[msg ds]|]; [|exact IH].
    constructor; [|exact IH].
    simpl. rewrite (Hds msg ds eq_refl). intro Hin; apply filter_In in Hin; tauto.
  - apply IH; [|exact He'].
    unfold add_client, set_clients; simpl. rewrite in_app_iff. simpl.
    intros [H | [H | []]]; [tauto|]. subst. apply He; now left.
  - apply IH; [|exact He'].
    rewrite remove_client_clients. intro Hin; apply In_list_remove in Hin; tauto.
Qed.

Lemma broadcast_update_some (m : PopulationManager) st clock (fails : Client -> bool) :
  connected_clients m <> [] ->
  exists msg ds, snd (broadcast_update m st clock fails) = Some (msg, ds).
Proof.
  intro Hne. unfold broadcast_update.
  destruct (connected_clients m) as [|c cs]; [contradiction|].
  destruct (send_all _ _). eexists; eexists; reflexivity.
Qed.

Lemma nth_error_skipn (l : list Client) (k : nat) (c : Client) :
  nth_error l k = Some c -> skipn k l = c :: skipn (S k) l.
Proof.
  revert k; induction l as [|x l IH]; intros [|k] H; simpl in *; try discriminate.
  - injection H as ->; reflexivity.
  - apply IH, H.
Qed.

(** Without concurrent removals the live loop visits every client once. *)
Lemma send_loop_live_no_removal (fuel : nat) (fails : Client -> bool) (k : nat)
    (m : PopulationManager) (del dis : list Client) :
  (length (connected_clients m) <= k + fuel)%nat ->
  send_loop_live fuel fails (fun _ => []) k m del dis
  = (m, del ++ filter (fun c => negb (fails c)) (skipn k (connected_clients m)),
        dis ++ filter fails (skipn k (connected_clients m))).
Proof.
  revert k del dis; induction fuel as [|fuel IH]; intros k del dis Hlen.
  - simpl. rewrite skipn_all2 by lia. simpl; rewrite !app_nil_r; reflexivity.
  - simpl. destruct (nth_error (connected_clients m) k) as [c|] eqn:Hn.
    + rewrite (nth_error_skipn _ _ _ Hn).
      change (remove_clients m []) with m.
      destruct (fails c) eqn:Hf; rewrite IH by lia; simpl; rewrite Hf; simpl;
        rewrite <- app_assoc; reflexivity.
    + apply nth_error_None in Hn. rewrite skipn_all2 by exact Hn.
      simpl; rewrite !app_nil_r; reflexivity.
Qed.

Lemma broadcast_update_live_no_removal (m : PopulationManager) st clock (fails : Client -> bool) :
  broadcast_update_live m st clock fails (fun _ => []) = broadcast_update m st clock fails.
Proof.
  unfold broadcast_update_live, broadcast_update.
  destruct (connected_clients m) as [|c cs] eqn:Hc; [reflexivity|].
  cbv zeta. set (m1 := if Qle_bool _ _ then _ else m).
  rewrite send_loop_live_no_removal by lia. rewrite send_all_spec. reflexivity.
Qed.

Lemma tick_live_no_removal (m : PopulationManager) (i : TickInput) :
  tick_live m i (fun _ => []) = tick m i.
Proof.
  unfold tick_live, tick.
  destruct (calculate_current_population _ _ _ _) as [st m1].
  apply broadcast_update_live_no_removal.
Qed.

Lemma removes_sub (ds l : list Client) (x : Client) : In x (removes ds l) -> In x l.
Proof.
  unfold removes; revert l; induction ds as [|d ds IH]; intros l H; simpl in *; [exact H|].
  apply In_list_remove with d. apply IH, H.
Qed.

Lemma remove_clients_sub (m : PopulationManager) (ds : list Client) (x : Client) :
  In x (connected_clients (remove_clients m ds)) -> In x (connected_clients m).
Proof. rewrite remove_clients_clients. apply removes_sub. Qed.

(** Every client the live loop keeps or delivers to was a member when the
    loop started. *)
Lemma send_loop_live_sub (P : Client -> Prop) (fuel : nat) (fails : Client -> bool)
    (rd : nat -> list Client) (k : nat) (m : PopulationManager) (del dis : list Client) :
  (forall x, In x (connected_clients m) -> P x) -> (forall x, In x del -> P x) ->
  (forall x, In x (connected_clients (fst (fst (send_loop_live fuel fails rd k m del dis)))) -> P x) /\
  (forall x, In x (snd (fst (send_loop_live fuel fails rd k m del dis))) -> P x).
Proof.
  revert k m del dis; induction fuel as [|fuel IH]; intros k m del dis Hm Hd; simpl; [tauto|].
  destruct (nth_error (connected_clients m) k) as [c|] eqn:Hn; [|simpl; tauto].
  assert (Hc : P c) by (apply Hm; eapply nth_error_In; exact Hn).
  assert (Hm' : forall x, In x (connected_clients (remove_clients m (rd k))) -> P x)
    by (intros x Hx; apply Hm; eapply remove_clients_sub; exact Hx).
  destruct (fails c); apply IH; try assumption.
  intros x Hx; apply in_app_iff in Hx as [Hx | [<- | []]]; auto.
Qed.

Lemma broadcast_update_live_sub (m : PopulationManager) st clock (fails : Client -> bool)
    (rd : nat -> list Client) :
  (forall x, In x (connected_clients (fst (broadcast_update_live m st clock fails rd))) ->
     In x (connected_clients m)) /\
  (forall msg ds, snd (broadcast_update_live m st clock fails rd) = Some (msg, ds) ->
     forall x, In x ds -> In x (connected_clients m)).
Proof.
  unfold broadcast_update_live. destruct (connected_clients m) as [|c cs] eqn:Hc.
  - simpl. split; [rewrite Hc; tauto | discriminate].
  - cbv zeta. set (m1 := if Qle_bool _ _ then _ else m).
    assert (H1 : connected_clients m1 = c :: cs)
      by (unfold m1; destruct (Qle_bool _ _); exact Hc).
    destruct (send_loop_live_sub (fun x => In x (c :: cs)) (length (connected_clients m1))
                fails rd 0 m1 [] []) as [Hm2 Hd2];
      [rewrite H1; tauto | simpl; tauto |].
    destruct (send_loop_live _ _ _ _ _ _ _) as [[m2 del] dis]. simpl in Hm2, Hd2.
    split.
    + intros x Hx. apply Hm2. exact (remove_clients_sub m2 dis x Hx).
    + intros msg ds H. injection H as _ <-. exact Hd2.
Qed.

Lemma tick_live_sub (m : PopulationManager) (i : TickInput) (rd : nat -> list Client) :
  (forall x, In x (connected_clients (fst (tick_live m i rd))) -> In x (connected_clients m)) /\
  (forall msg ds, snd (tick_live m i rd) = Some (msg, ds) ->
     forall x, In x ds -> In x (connected_clients m)).
Proof.
  unfold tick_live.
  pose proof (proj1 (calculate_keeps m (tick_time i) (tick_date_us i) (tick_secs_us i))) as Hk.
  destruct (calculate_current_population _ _ _ _) as [st m1]. simpl in Hk. rewrite <- Hk.
  apply broadcast_update_live_sub.
Qed.

(** A client that is not a member, and does not connect again, gets
    nothing, whatever other endpoints end during the sends. *)
Lemma run_live_absent (evs : list LiveEvent) (m : PopulationManager) (c : Client) :
  ~ In c (connected_clients m) -> ~ In (LConnect c) evs ->
  Forall (fun o : TickMessage * list Client => ~ In c (snd o)) (snd (run_live m evs)).
Proof.
  revert m; induction evs as [|e evs IH]; intros m Hm He; simpl; [constructor|].
  assert (He' : ~ In (LConnect c) evs) by (intro; apply He; now right).
  destruct e as [i rd | c' | c'].
  - destruct (tick_live_sub m i rd) as [Hcl Hds].
    destruct (tick_live m i rd) as [m1 out] eqn:Ht. simpl in Hcl, Hds.
    assert (Hm1 : ~ In c (connected_clients m1)) by (intro Hin; apply Hm, Hcl, Hin).
    specialize (IH m1 Hm1 He').
    destruct (run_live m1 evs) as [m2 outs]; simpl in *.
    destruct out as [[msg ds]|]; [|exact IH].
    constructor; [|exact IH].
    simpl. intro Hin. apply Hm, (Hds msg ds eq_refl), Hin.
  - apply IH; [|exact He'].
    unfold add_client, set_clients; simpl. rewrite in_app_iff. simpl.
    intros [H | [H | []]]; [tauto|]. subst. apply He; now left.
  - apply IH; [|exact He'].
    rewrite remove_client_clients. intro Hin; apply In_list_remove in Hin; tauto.
Qed.




(** * Further properties of the code *)

(** ** Estimator *)

Lemma py_int_proper (q1 q2 : Q) : (q1 == q2)%Q -> py_int q1 = py_int q2.
Proof.
  intro H. apply Z.le_antisymm; apply py_int_le; rewrite H; apply Qle_refl.
Qed.

Lemma count_today_quot (a s : Z) :
  count_today a s = Z.quot (a * s * 100) (86400 * 36525).
Proof.
  unfold count_today.
  rewrite (py_int_proper _ ((a * s * 100) # (86400 * 36525))).
  - reflexivity.
  - unfold Qeq, Qdiv, Qmult, seconds_per_day, days_per_year; simpl. lia.
Qed.

(** The births and deaths of the day (lines 239-247) start at [0] at Korea
    midnight, grow with the seconds of the day, and stay within one day's
    share [annual_count / 365.25] of the annual count. *)
Theorem count_today_bounds (a s1 s2 : Z) :
  0 <= a -> 0 <= s1 <= s2 -> s2 < 86400 ->
  count_today a 0 = 0 /\
  0 <= count_today a s1 <= count_today a s2 /\
  count_today a s2 * 36525 <= a * 100.
Proof.
  intros Ha Hs Hs2. rewrite !count_today_quot.
  rewrite !Z.quot_div_nonneg by nia.
  split; [rewrite Z.mul_0_r, Z.mul_0_l; reflexivity|].
  split; [split; [apply Z.div_pos; nia | apply Z.div_le_mono; nia]|].
  pose proof (Z.mul_div_le (a * s2 * 100) (86400 * 36525)) as H.
  nia.
Qed.

Lemma count_today_bounds_witness :
  0 <= 342829 /\ 0 <= 100 <= 200 /\ 200 < 86400 /\
  count_today 342829 0 = 0 /\
  0 <= count_today 342829 100 <= count_today 342829 200 /\
  count_today 342829 200 * 36525 <= 342829 * 100.
Proof.
  refine (conj _ (conj _ (conj _ (count_today_bounds 342829 100 200 _ _ _)))); lia.
Defined.

Lemma digit_value_digit (n : Z) : 0 <= n <= 9 -> digit_value (digit n) = Some n.
Proof.
  intros H. unfold digit_value, digit.
  rewrite nat_ascii_embedding by lia.
  replace ((48 <=? 48 + Z.to_nat n)%nat && (48 + Z.to_nat n <=? 57)%nat) with true.
  - f_equal. lia.
  - symmetry. apply andb_true_iff. split; apply Nat.leb_le; lia.
Qed.

Lemma parse_hms_digits (a b c d e f : Z) :
  0 <= a <= 9 -> 0 <= b <= 9 -> 0 <= c <= 9 -> 0 <= d <= 9 -> 0 <= e <= 9 -> 0 <= f <= 9 ->
  parse_hms (String (digit a) (String (digit b) (String ":" (String (digit c)
    (String (digit d) (String ":" (String (digit e) (String (digit f) EmptyString))))))))
  = Some ((10 * a + b) * 3600 + (10 * c + d) * 60 + (10 * e + f)).
Proof.
  intros. unfold parse_hms.
  rewrite !digit_value_digit by assumption. reflexivity.
Qed.

(** The ["korea_time"] text of the messages ([strftime("%H:%M:%S")]) reads
    back as the [seconds_since_midnight] they carry. *)
Theorem korea_time_roundtrip (now_us : Z) :
  parse_hms (korea_time_hms now_us) = Some (get_seconds_since_midnight_kst now_us).
Proof.
  pose proof (seconds_since_midnight_range now_us) as Hr.
  unfold korea_time_hms, two_digits. cbn [append].
  set (s := get_seconds_since_midnight_kst now_us) in *.
  pose proof (Z.mod_pos_bound s 3600) as H1.
  pose proof (Z.mod_pos_bound s 60) as H2.
  assert (Hh : 0 <= s / 3600 < 24) by (split; [apply Z.div_pos | apply Z.div_lt_upper_bound]; lia).
  assert (Hm : 0 <= s mod 3600 / 60 < 60) by (split; [apply Z.div_pos | apply Z.div_lt_upper_bound]; lia).
  rewrite parse_hms_digits.
  - f_equal.
    pose proof (Z.div_mod (s / 3600) 10) as E1.
    pose proof (Z.div_mod (s mod 3600 / 60) 10) as E2.
    pose proof (Z.div_mod (s mod 60) 10) as E3.
    pose proof (Z.div_mod s 3600) as E4.
    pose proof (Z.div_mod (s mod 3600) 60) as E5.
    pose proof (Z.div_mod s 60) as E6.
    assert (E7 : s mod 3600 mod 60 = s mod 60).
    { change 3600 with (60 * 60). rewrite Z.rem_mul_r by lia.
      rewrite Z.mul_comm, Z.mod_add by lia. apply Z.mod_mod; lia. }
    lia.
  - split; [apply Z.div_pos | apply Z.div_le_upper_bound]; lia.
  - pose proof (Z.mod_pos_bound (s / 3600) 10); lia.
  - split; [apply Z.div_pos | apply Z.div_le_upper_bound]; lia.
  - pose proof (Z.mod_pos_bound (s mod 3600 / 60) 10); lia.
  - split; [apply Z.div_pos | apply Z.div_le_upper_bound]; lia.
  - pose proof (Z.mod_pos_bound (s mod 60) 10); lia.
Qed.

(** ** Client membership *)

Lemma existsb_eqb_In (c : Client) (l : list Client) :
  existsb (Nat.eqb c) l = true <-> In c l.
Proof.
  rewrite existsb_exists. split.
  - intros [x [Hx He]]. apply Nat.eqb_eq in He. subst; exact Hx.
  - intro H. exists c. split; [exact H | apply Nat.eqb_refl].
Qed.

Lemma set_clients_same (m : PopulationManager) : set_clients m (connected_clients m) = m.
Proof. destruct m; reflexivity. Qed.

Lemma list_remove_app_absent (c : Client) (l : list Client) :
  ~ In c l -> list_remove c (l ++ [c]) = l.
Proof.
  induction l as [|x l IH]; simpl; intro H.
  - rewrite Nat.eqb_refl. reflexivity.
  - destruct (Nat.eqb_spec c x) as [-> | _]; [tauto|].
    rewrite IH; tauto.
Qed.

(** [remove_client] of a client that is not connected leaves the manager as
    it is (the [finally] of [websocket_endpoint] after the broadcast loop
    already evicted it), and a connection of a new client followed by its
    disconnection restores the manager. *)
Theorem connect_disconnect (m : PopulationManager) (c : Client) :
  ~ In c (connected_clients m) ->
  remove_client m c = m /\ remove_client (add_client m c) c = m.
Proof.
  intro H. split.
  - unfold remove_client.
    destruct (existsb (Nat.eqb c) (connected_clients m)) eqn:He; [|reflexivity].
    apply existsb_eqb_In in He. contradiction.
  - unfold remove_client, add_client.
    assert (Hin : existsb (Nat.eqb c) (connected_clients (set_clients m (connected_clients m ++ [c]))) = true).
    { apply existsb_eqb_In. simpl. apply in_or_app. right. left. reflexivity. }
    rewrite Hin. simpl. rewrite list_remove_app_absent by exact H.
    destruct m; reflexivity.
Qed.

Lemma connect_disconnect_witness :
  ~ In 7%nat (connected_clients m0) /\
  remove_client m0 7%nat = m0 /\ remove_client (add_client m0 7%nat) 7%nat = m0.
Proof.
  assert (H : ~ In 7%nat (connected_clients m0)) by (simpl; tauto).
  exact (conj H (connect_disconnect m0 7%nat H)).
Defined.

(** ** The broadcast loop without viewers *)

Definition is_tick (e : Event) : bool :=
  match e with EvTick _ => true | _ => false end.

(** While no viewer is connected, [broadcast_update] returns at once
    (lines 278-279): the loop sends nothing and leaves [last_resync_time]
    and the client list as they are, whatever the clock. *)
Theorem ticks_without_viewers (m : PopulationManager) (evs : list Event) :
  connected_clients m = [] -> forallb is_tick evs = true ->
  snd (run m evs) = [] /\
  connected_clients (fst (run m evs)) = [] /\
  last_resync_time (fst (run m evs)) = last_resync_time m.
Proof.
  revert m; induction evs as [|e evs IH]; intros m Hc Ht; simpl; [tauto|].
  destruct e as [i | c | c]; simpl in Ht; try discriminate.
  unfold tick.
  destruct (calculate_current_population m (tick_time i) (tick_date_us i) (tick_secs_us i))
    as [st m1] eqn:Hcalc.
  assert (Hk := calculate_keeps m (tick_time i) (tick_date_us i) (tick_secs_us i)).
  rewrite Hcalc in Hk. simpl in Hk. destruct Hk as [Hk1 Hk2].
  unfold broadcast_update. rewrite Hk1, Hc.
  destruct (run m1 evs) as [m2 outs] eqn:Hrun.
  destruct (IH m1 ltac:(congruence) Ht) as [H1 [H2 H3]].
  rewrite Hrun in H1, H2, H3. simpl in *. split; [exact H1|]. split; congruence.
Qed.

Lemma ticks_without_viewers_witness :
  let evs := [EvTick (mkTickInput (inject_Z 1760000002) 0 0 0 (fun _ => false));
              EvTick (mkTickInput (inject_Z 1760000040) 0 0 0 (fun _ => false))] in
  connected_clients m0 = [] /\ forallb is_tick evs = true /\
  snd (run m0 evs) = [] /\ last_resync_time (fst (run m0 evs)) = last_resync_time m0.
Proof.
  intro evs. refine (conj eq_refl (conj eq_refl _)).
  destruct (ticks_without_viewers m0 evs eq_refl eq_refl) as [H1 [_ H3]].
  exact (conj H1 H3).
Defined.

(** ** What the loop and the endpoints never change *)

Lemma same_data_refl (m : PopulationManager) : same_data m m.
Proof. unfold same_data; repeat split. Qed.

Lemma same_data_trans (m1 m2 m3 : PopulationManager) :
  same_data m1 m2 -> same_data m2 m3 -> same_data m1 m3.
Proof. unfold same_data; intuition congruence. Qed.

Lemma same_data_set_clients (m : PopulationManager) cs : same_data m (set_clients m cs).
Proof. unfold same_data; repeat split. Qed.

Lemma same_data_remove_client (m : PopulationManager) c : same_data m (remove_client m c).
Proof.
  unfold remove_client. destruct (existsb _ _); [apply same_data_set_clients | apply same_data_refl].
Qed.

Lemma same_data_remove_clients (m : PopulationManager) ds : same_data m (remove_clients m ds).
Proof.
  unfold remove_clients. revert m; induction ds as [|d ds IH]; intro m; simpl.
  - apply same_data_refl.
  - eapply same_data_trans; [apply same_data_remove_client | apply IH].
Qed.

Lemma same_data_broadcast (m : PopulationManager) st clk fails :
  same_data m (fst (broadcast_update m st clk fails)).
Proof.
  unfold broadcast_update. destruct (connected_clients m); [apply same_data_refl|].
  set (m1 := if Qle_bool _ _ then _ else m).
  assert (H1 : same_data m m1).
  { subst m1. destruct (Qle_bool _ _); [unfold same_data; repeat split | apply same_data_refl]. }
  destruct (send_all fails (connected_clients m1)) as [dl ds].
  eapply same_data_trans; [exact H1 | apply same_data_remove_clients].
Qed.

Lemma same_data_calculate (m : PopulationManager) t d s :
  same_data m (snd (calculate_current_population m t d s)).
Proof. unfold same_data; repeat split. Qed.

Lemma same_data_run (m : PopulationManager) evs : same_data m (fst (run m evs)).
Proof.
  revert m; induction evs as [|e evs IH]; intro m; simpl; [apply same_data_refl|].
  destruct e as [i | c | c].
  - unfold tick.
    destruct (calculate_current_population m _ _ _) as [st m1] eqn:Hc.
    destruct (broadcast_update m1 st _ _) as [m2 out] eqn:Hb.
    destruct (run m2 evs) as [m3 outs] eqn:Hr. simpl.
    assert (H1 := same_data_calculate m (tick_time i) (tick_date_us i) (tick_secs_us i)).
    rewrite Hc in H1.
    assert (H2 := same_data_broadcast m1 st (tick_clock_us i) (tick_send_fails i)).
    rewrite Hb in H2.
    assert (H3 := IH m2). rewrite Hr in H3.
    eapply same_data_trans; [exact H1|]. eapply same_data_trans; [exact H2 | exact H3].
  - eapply same_data_trans; [apply same_data_set_clients | apply IH].
  - eapply same_data_trans; [apply same_data_remove_client | apply IH].
Qed.

(** The broadcast loop, the WebSocket connections and disconnections, and
    [calculate_current_population] never change the country data, the
    per-second rates, the daily increments or [recent_events]: only
    [__init__] and [update_base_data] write them. *)
Theorem loop_keeps_data (m : PopulationManager) (evs : list Event) t date_us secs_us :
  same_data m (fst (run m evs)) /\
  same_data m (snd (calculate_current_population m t date_us secs_us)).
Proof. split; [apply same_data_run | apply same_data_calculate]. Qed.

(** ** Invariants of the global manager *)

Lemma lower_char_idem (c : ascii) : lower_char (lower_char c) = lower_char c.
Proof.
  unfold lower_char.
  destruct ((65 <=? nat_of_ascii c)%nat && (nat_of_ascii c <=? 90)%nat) eqn:H.
  - apply andb_true_iff in H as [H1 H2].
    apply Nat.leb_le in H1. apply Nat.leb_le in H2.
    rewrite nat_ascii_embedding by lia.
    replace ((65 <=? nat_of_ascii c + 32)%nat && (nat_of_ascii c + 32 <=? 90)%nat) with false.
    + reflexivity.
    + symmetry. apply andb_false_iff. right. apply Nat.leb_gt. lia.
  - rewrite H. reflexivity.
Qed.

(** [str.lower()] is idempotent: [update_base_data] lowercases again the
    country name that the admin endpoint already lowercased. *)
Theorem lower_idem (s : string) : lower (lower s) = lower s.
Proof.
  induction s as [|c s IH]; simpl; [reflexivity|].
  rewrite lower_char_idem, IH. reflexivity.
Qed.

Lemma derived_consistent_same (m m' : PopulationManager) :
  same_data m m' -> derived_consistent m -> derived_consistent m'.
Proof.
  unfold same_data, derived_consistent.
  intros (E1 & E2 & E3 & E4 & E5 & E6 & E7 & E8 & _) (D1 & D2 & D3 & D4).
  rewrite E1, E2, E3, E4, E5, E6, E7, E8. tauto.
Qed.

Lemma derived_consistent_update (m : PopulationManager) c u :
  derived_consistent m -> derived_consistent (update_base_data m c u).
Proof.
  unfold derived_consistent, update_base_data. intros (D1 & D2 & D3 & D4).
  destruct (String.eqb (lower c) "south_korea"); [|destruct (String.eqb (lower c) "north_korea")];
    simpl; repeat split; try assumption;
    try (intros x Hx; injection Hx as <-; reflexivity);
    (destruct (calculate_birth_death_rates_per_second _); reflexivity).
Qed.

Lemma admin_ok_update env hits m country population year births deaths growth_rate admin_key m' u :
  admin_update_base_data env hits m country population year births deaths growth_rate admin_key
    = HTTPOk m' u ->
  m' = update_base_data m (lower country) u /\
  existsb (String.eqb (lower country)) ["south_korea"; "north_korea"]%string = true /\
  u = {| ud_population := Some population; ud_year := Some year;
         ud_date := Some (z_to_string year ++ "-01-01T00:00:00Z")%string;
         ud_births := births; ud_deaths := deaths; ud_growth_rate := growth_rate |}.
Proof.
  unfold admin_update_base_data.
  destruct (10 <=? hits)%nat; [discriminate|].
  destruct (negb _); [discriminate|].
  destruct (existsb _ _) eqn:He; simpl; [|discriminate].
  intro H; injection H as <- <-. tauto.
Qed.

Lemma derived_consistent_of_reachable (m : PopulationManager) :
  reachable m -> derived_consistent m.
Proof.
  induction 1 as [t1 t2 now | m evs _ IH | m t d s _ IH
                 | m env hits country population year births deaths growth_rate admin_key m' u _ IH Hok].
  - unfold derived_consistent; simpl. repeat split; discriminate.
  - eapply derived_consistent_same; [apply same_data_run | exact IH].
  - eapply derived_consistent_same; [apply same_data_calculate | exact IH].
  - apply admin_ok_update in Hok as (-> & _ & _). apply derived_consistent_update; exact IH.
Qed.



Lemma recent_events_update (m : PopulationManager) c u :
  recent_events (update_base_data m c u) = recent_events m.
Proof.
  unfold update_base_data.
  destruct (String.eqb _ "south_korea"); [|destruct (String.eqb _ "north_korea")]; reflexivity.
Qed.

(** Nothing in the code appends to [recent_events]: in every state of the
    global manager it is empty, so the ["recent_events"] list of
    [/api/realtime/precise] is always empty. *)
Theorem reachable_no_recent_events (m : PopulationManager) :
  reachable m ->
  recent_events m = [] /\
  forall t date_us secs_us,
    st_recent_events (fst (calculate_current_population m t date_us secs_us)) = [].
Proof.
  intro H.
  assert (He : recent_events m = []).
  { induction H as [t1 t2 now | m evs _ IH | m t d s _ IH
                   | m env hits country population year births deaths growth_rate admin_key m' u _ IH Hok].
    - reflexivity.
    - destruct (same_data_run m evs) as (_ & _ & _ & _ & _ & _ & _ & _ & E). congruence.
    - exact IH.
    - apply admin_ok_update in Hok as (-> & _ & _). rewrite recent_events_update. exact IH. }
  split; [exact He|]. intros. simpl. exact He.
Qed.

Lemma reachable_no_recent_events_witness :
  reachable (fst (run m0 later_ticks)) /\ recent_events (fst (run m0 later_ticks)) = [].
Proof.
  assert (H : reachable (fst (run m0 later_ticks))) by (apply reach_run; apply reach_init).
  exact (conj H (proj1 (reachable_no_recent_events _ H))).
Defined.



Lemma rate_zero (x : Z) :
  Qeq_bool (inject_Z x / (days_per_year * 24 * 60 * 60)) 0 = true <-> x = 0.
Proof.
  rewrite Qeq_bool_iff. split.
  - intro H.
    assert (Hx : (inject_Z x == inject_Z x / (days_per_year * 24 * 60 * 60) * (days_per_year * 24 * 60 * 60))%Q).
    { unfold days_per_year. field. }
    rewrite H in Hx. apply inject_Z_injective. rewrite Hx. reflexivity.
  - intros ->. reflexivity.
Qed.

Lemma py_recip_rate (x : Z) :
  py_recip (inject_Z x / (days_per_year * 24 * 60 * 60)) = None <-> x = 0.
Proof.
  unfold py_recip. rewrite <- rate_zero.
  destruct (Qeq_bool _ 0); split; congruence.
Qed.



(** ** The admin endpoint *)

(** [POST /api/admin/update-base-data] answers 429 to a remote address
    that already sent ten requests in the current hour, whatever the
    request holds; below that it answers 401 to a missing or wrong
    [admin_key] (the expected key is [$ADMIN_UPDATE_KEY], by default
    ["admin-secret-key"]) and then 400 to a country other than
    [south_korea] or [north_korea] in any letter case; none of these
    changes the manager. *)
Theorem admin_rejections (env : option string) (hits : nat) (m : PopulationManager)
    (country : string) (population year : Z) (births deaths : option Z)
    (growth_rate : option Q) (admin_key : option string) :
  ((10 <= hits)%nat ->
   admin_update_base_data env hits m country population year births deaths growth_rate admin_key
     = HTTPError 429 "Rate limit exceeded: 10 per 1 hour") /\
  ((hits < 10)%nat -> admin_key <> Some (dict_get env "admin-secret-key"%string) ->
   admin_update_base_data env hits m country population year births deaths growth_rate admin_key
     = HTTPError 401 "Invalid admin key") /\
  ((hits < 10)%nat -> admin_key = Some (dict_get env "admin-secret-key"%string) ->
   lower country <> "south_korea"%string -> lower country <> "north_korea"%string ->
   admin_update_base_data env hits m country population year births deaths growth_rate admin_key
     = HTTPError 400 "Country must be 'south_korea' or 'north_korea'").
Proof.
  unfold admin_update_base_data. split; [|split].
  - intro Hh. apply Nat.leb_le in Hh. rewrite Hh. reflexivity.
  - intros Hh Hk. apply Nat.leb_gt in Hh. rewrite Hh.
    destruct admin_key as [k|]; [|reflexivity].
    destruct (String.eqb_spec k (dict_get env "admin-secret-key"%string)) as [-> | _];
      [congruence | reflexivity].
  - intros Hh -> Hs Hn. apply Nat.leb_gt in Hh. rewrite Hh, String.eqb_refl. simpl.
    destruct (String.eqb_spec (lower country) "south_korea"); [contradiction|].
    destruct (String.eqb_spec (lower country) "north_korea"); [contradiction|].
    reflexivity.
Qed.

Lemma admin_rejections_witness :
  ((10 <= 10)%nat /\
   admin_update_base_data None 10 m0 "south_korea" 1 2025 None None None
     (Some "admin-secret-key"%string)
     = HTTPError 429 "Rate limit exceeded: 10 per 1 hour") /\
  ((3 < 10)%nat /\ Some "guess"%string <> Some (dict_get None "admin-secret-key"%string) /\
   admin_update_base_data None 3 m0 "south_korea" 1 2025 None None None (Some "guess"%string)
     = HTTPError 401 "Invalid admin key") /\
  ((3 < 10)%nat /\ lower "Japan" <> "south_korea"%string /\ lower "Japan" <> "north_korea"%string /\
   admin_update_base_data None 3 m0 "Japan" 1 2025 None None None (Some "admin-secret-key"%string)
     = HTTPError 400 "Country must be 'south_korea' or 'north_korea'").
Proof.
  assert (H10 : (10 <= 10)%nat) by lia.
  assert (H3 : (3 < 10)%nat) by lia.
  split; [|split].
  - exact (conj H10 (proj1 (admin_rejections None 10 m0 "south_korea" 1 2025 None None None _) H10)).
  - assert (H : Some "guess"%string <> Some (dict_get None "admin-secret-key"%string)) by discriminate.
    exact (conj H3 (conj H
      (proj1 (proj2 (admin_rejections None 3 m0 "south_korea" 1 2025 None None None _)) H3 H))).
  - assert (H1 : lower "Japan" <> "south_korea"%string) by discriminate.
    assert (H2 : lower "Japan" <> "north_korea"%string) by discriminate.
    exact (conj H3 (conj H1 (conj H2
      (proj2 (proj2 (admin_rejections None 3 m0 "Japan" 1 2025 None None None _))
         H3 eq_refl H1 H2)))).
Defined.



(** ** What the snapshot depends on *)

(** The snapshot of [calculate_current_population] depends only on the
    country data, [recent_events] and the clock readings: not on the
    counters, populations or [current_day] left by earlier calls, so the
    ["new day"] branch only records the Korea date, and the daily counters
    restart from the time of day alone. *)
Theorem snapshot_depends_on_data (m1 m2 : PopulationManager) (t : Q) (date_us secs_us : Z) :
  south_korea_data m1 = south_korea_data m2 ->
  north_korea_data m1 = north_korea_data m2 ->
  recent_events m1 = recent_events m2 ->
  fst (calculate_current_population m1 t date_us secs_us)
    = fst (calculate_current_population m2 t date_us secs_us) /\
  current_day (snd (calculate_current_population m1 t date_us secs_us)) = kst_date date_us.
Proof.
  intros H1 H2 H3. simpl. rewrite H1, H2, H3. split; [reflexivity|].
  destruct (Z.eqb_spec (kst_date date_us) (current_day m1)); congruence.
Qed.

Lemma snapshot_depends_on_data_witness :
  let m1 := snd (calculate_current_population m0 (inject_Z 1760000000) 0 0) in
  let m2 := add_client m1 3%nat in
  fst (calculate_current_population m1 (inject_Z 1760086400) 86400000000 86400000000)
    = fst (calculate_current_population m2 (inject_Z 1760086400) 86400000000 86400000000).
Proof.
  intros m1 m2.
  exact (proj1 (snapshot_depends_on_data m1 m2 (inject_Z 1760086400) 86400000000 86400000000
                  eq_refl eq_refl eq_refl)).
Defined.

(** ** The rates sent to the viewers *)

(** In every state of the global manager, the ["simulation_rates"] of a
    broadcast message are the per-second rates of the current country
    data. *)
Theorem tick_message_rates (m m' : PopulationManager) (i : TickInput)
    (msg : TickMessage) (delivered : list Client) :
  reachable m -> tick m i = (m', Some (msg, delivered)) ->
  (msg_sk_births_per_sec msg, msg_sk_deaths_per_sec msg)
    = calculate_birth_death_rates_per_second (south_korea_data m) /\
  (msg_nk_births_per_sec msg, msg_nk_deaths_per_sec msg)
    = calculate_birth_death_rates_per_second (north_korea_data m).
Proof.
  intros Hr Ht. destruct (derived_consistent_of_reachable m Hr) as (D1 & D2 & _).
  unfold tick, broadcast_update in Ht. simpl in Ht.
  destruct (connected_clients m); [discriminate|].
  destruct (Qle_bool _ _);
    (destruct (send_all _ _) as [dl ds]; injection Ht as _ <- _; simpl; split; assumption).
Qed.

Lemma tick_message_rates_witness :
  let m := fst (run m0 [EvConnect 3%nat]) in
  let i := mkTickInput (inject_Z 1760000001) 0 0 0 (fun _ => false) in
  match tick m i with
  | (m', Some (msg, ds)) =>
      reachable m /\
      (msg_sk_births_per_sec msg, msg_sk_deaths_per_sec msg)
        = calculate_birth_death_rates_per_second (south_korea_data m)
  | (_, None) => False
  end.
Proof.
  intros m i.
  assert (Hr : reachable m) by (apply reach_run; apply reach_init).
  destruct (tick m i) as [m' [[msg ds]|]] eqn:E.
  - exact (conj Hr (proj1 (tick_message_rates m m' i msg ds Hr E))).
  - vm_compute in E. discriminate.
Defined.

(** ** The descriptive data and [/api/validation] *)

Lemma static_fields_update (m : PopulationManager) c u :
  static_fields (south_korea_data (update_base_data m c u)) = static_fields (south_korea_data m) /\
  static_fields (north_korea_data (update_base_data m c u)) = static_fields (north_korea_data m).
Proof.
  unfold update_base_data.
  destruct (String.eqb _ "south_korea"); [|destruct (String.eqb _ "north_korea")];
    split; reflexivity.
Qed.

Lemma static_fields_of_reachable (m : PopulationManager) :
  reachable m ->
  static_fields (south_korea_data m) = static_fields south_korea_init /\
  static_fields (north_korea_data m) = static_fields north_korea_init.
Proof.
  induction 1 as [t1 t2 now | m evs _ IH | m t d s _ IH
                 | m env hits country population year births deaths growth_rate admin_key m' u _ IH Hok].
  - split; reflexivity.
  - destruct (same_data_run m evs) as (E1 & E2 & _). rewrite E1, E2. exact IH.
  - exact IH.
  - apply admin_ok_update in Hok as (-> & _ & _).
    destruct (static_fields_update m (lower country) u) as [E1 E2]. rewrite E1, E2. exact IH.
Qed.



Lemma validates_iff (d : CountryData) :
  snd (validate_country d) = true <->
  (-1 < (birth_rate d - death_rate d) / 10 - annual_growth_rate d < 1)%Q.
Proof.
  unfold validate_country; cbn [snd].
  set (x := ((birth_rate d - death_rate d) / 10 - annual_growth_rate d)%Q).
  pose proof (Qabs_Qlt_condition x 1) as Hc.
  destruct (Qle_bool 1 (Qabs x)) eqn:E; simpl.
  - apply Qle_bool_iff in E. split; [discriminate|]. intro H.
    exfalso. assert (Qabs x < 1)%Q by (apply Hc; lra). lra.
  - split; [intros _|reflexivity].
    assert (Hl : (Qabs x < 1)%Q).
    { apply Qnot_le_lt. intro H. apply Qle_bool_iff in H. congruence. }
    apply Hc in Hl. lra.
Qed.



(** ** No viewer gets a message twice *)

Lemma NoDup_app_disjoint (l1 l2 : list Client) :
  NoDup (l1 ++ l2) -> forall a, In a l1 -> ~ In a l2.
Proof.
  induction l1 as [|x l1 IH]; simpl; [tauto|].
  intros H a [-> | Ha] Ha2; inversion H as [|y l Hx Hn]; subst.
  - apply Hx. apply in_or_app. right. exact Ha2.
  - exact (IH Hn a Ha Ha2).
Qed.

Lemma NoDup_list_remove (c : Client) (l : list Client) :
  NoDup l -> NoDup (list_remove c l).
Proof.
  induction l as [|x l IH]; simpl; intro H; [constructor|].
  inversion H as [|y l' Hx Hn]; subst.
  destruct (Nat.eqb c x); [exact Hn|].
  constructor; [intro Hin; apply Hx; exact (In_list_remove _ _ _ Hin) | exact (IH Hn)].
Qed.

(** The clients of a manager are without repetition and apart from the
    handles still to connect. *)
Definition clients_fresh (m : PopulationManager) (rest : list Client) : Prop :=
  NoDup (connected_clients m) /\ NoDup rest /\
  forall c, In c (connected_clients m) -> ~ In c rest.

Lemma clients_fresh_shrink (m m' : PopulationManager) rest :
  clients_fresh m rest ->
  NoDup (connected_clients m') -> (forall c, In c (connected_clients m') -> In c (connected_clients m)) ->
  clients_fresh m' rest.
Proof.
  intros (H1 & H2 & H3) H4 H5. split; [exact H4|]. split; [exact H2|].
  intros c Hc. apply H3, H5, Hc.
Qed.

Lemma remove_client_shrinks (m : PopulationManager) c :
  NoDup (connected_clients m) ->
  NoDup (connected_clients (remove_client m c)) /\
  forall x, In x (connected_clients (remove_client m c)) -> In x (connected_clients m).
Proof.
  intro H. rewrite remove_client_clients. split.
  - apply NoDup_list_remove, H.
  - intros x. apply In_list_remove.
Qed.

Lemma remove_clients_shrinks (m : PopulationManager) ds :
  NoDup (connected_clients m) ->
  NoDup (connected_clients (remove_clients m ds)) /\
  forall x, In x (connected_clients (remove_clients m ds)) -> In x (connected_clients m).
Proof.
  unfold remove_clients. revert m; induction ds as [|d ds IH]; intros m H; simpl.
  - split; [exact H | tauto].
  - destruct (remove_client_shrinks m d H) as [H1 H2].
    destruct (IH (remove_client m d) H1) as [H3 H4].
    split; [exact H3|]. intros x Hx. apply H2, H4, Hx.
Qed.

Lemma broadcast_shrinks (m : PopulationManager) st clk fails :
  NoDup (connected_clients m) ->
  NoDup (connected_clients (fst (broadcast_update m st clk fails))) /\
  (forall x, In x (connected_clients (fst (broadcast_update m st clk fails))) ->
     In x (connected_clients m)) /\
  (forall msg ds, snd (broadcast_update m st clk fails) = Some (msg, ds) -> NoDup ds).
Proof.
  intro H. unfold broadcast_update.
  destruct (connected_clients m) as [|c cs] eqn:Hc; simpl.
  - rewrite Hc. split; [exact H|]. split; [tauto | discriminate].
  - set (m1 := if Qle_bool _ _ then _ else _).
    assert (Hm1 : connected_clients m1 = c :: cs)
      by (subst m1; destruct (Qle_bool _ _); exact Hc).
    rewrite send_all_spec, Hm1. simpl.
    rewrite <- Hm1 in H.
    destruct (remove_clients_shrinks m1 (filter fails (c :: cs)) H) as [H1 H2].
    rewrite Hm1 in H2.
    split; [exact H1|]. split; [exact H2|].
    intros msg ds Hs. injection Hs as _ <-.
    rewrite Hm1 in H. exact (NoDup_filter (fun c => negb (fails c)) H).
Qed.

Lemma tick_shrinks (m : PopulationManager) i :
  NoDup (connected_clients m) ->
  NoDup (connected_clients (fst (tick m i))) /\
  (forall x, In x (connected_clients (fst (tick m i))) -> In x (connected_clients m)) /\
  (forall msg ds, snd (tick m i) = Some (msg, ds) -> NoDup ds).
Proof.
  intro H. unfold tick.
  destruct (calculate_current_population m (tick_time i) (tick_date_us i) (tick_secs_us i))
    as [st m1] eqn:Hcalc.
  assert (Hk := calculate_keeps m (tick_time i) (tick_date_us i) (tick_secs_us i)).
  rewrite Hcalc in Hk. simpl in Hk. destruct Hk as [Hk _].
  rewrite <- Hk in H |- *.
  exact (broadcast_shrinks m1 st (tick_clock_us i) (tick_send_fails i) H).
Qed.

(** If every WebSocket connection is a new client (the handles of the
    connections of a run are distinct and none is connected at its start),
    no tick delivers its message twice to the same viewer. *)
Theorem deliveries_without_repeats (m : PopulationManager) (evs : list Event) :
  NoDup (connected_clients m ++ connects evs) ->
  Forall (fun o => NoDup (snd o)) (snd (run m evs)).
Proof.
  intro H.
  assert (Hf : clients_fresh m (connects evs)).
  { split; [exact (NoDup_app_remove_r _ _ H)|].
    split; [exact (NoDup_app_remove_l _ _ H) | exact (NoDup_app_disjoint _ _ H)]. }
  clear H. revert m Hf; induction evs as [|e evs IH]; intros m Hf; simpl; [constructor|].
  destruct e as [i | c | c].
  - destruct (tick m i) as [m1 out] eqn:Ht.
    destruct (tick_shrinks m i (proj1 Hf)) as (H1 & H2 & H3).
    rewrite Ht in H1, H2, H3. simpl in H1, H2, H3.
    assert (Hf1 : clients_fresh m1 (connects evs)) by exact (clients_fresh_shrink m m1 _ Hf H1 H2).
    destruct (run m1 evs) as [m2 outs] eqn:Hr.
    assert (IH1 := IH m1 Hf1). rewrite Hr in IH1. simpl in IH1.
    destruct out as [[msg ds]|]; [constructor; [exact (H3 msg ds eq_refl) | exact IH1] | exact IH1].
  - apply IH. destruct Hf as (H1 & H2 & H3). simpl in H2, H3.
    apply NoDup_cons_iff in H2 as [Hc Hn].
    unfold add_client; simpl. split; [|split; [exact Hn|]].
    + apply NoDup_app; [exact H1 | repeat constructor; simpl; tauto |].
      intros a Ha [<- | []]. exact (H3 c Ha (or_introl eq_refl)).
    + intros x Hx. apply in_app_or in Hx as [Hx | [<- | []]].
      * intro Hin. exact (H3 x Hx (or_intror Hin)).
      * exact Hc.
  - apply IH. destruct Hf as (H1 & H2 & H3).
    destruct (remove_client_shrinks m c H1) as [H4 H5].
    split; [exact H4|]. split; [exact H2|]. intros x Hx. apply H3, H5, Hx.
Qed.

Lemma deliveries_without_repeats_witness :
  NoDup (connected_clients m0 ++ connects later_ticks) /\
  Forall (fun o => NoDup (snd o)) (snd (run m0 later_ticks)).
Proof.
  assert (H : NoDup (connected_clients m0 ++ connects later_ticks)).
  { simpl. repeat constructor. simpl. tauto. }
  exact (conj H (deliveries_without_repeats m0 later_ticks H)).
Defined.

(** ** The Korea clock *)

Lemma kst_reading_decomposition_aux (now_us : Z) :
  exists r, 0 <= r < us_per_s /\
  now_us + kst_offset_us
    = kst_date now_us * (seconds_per_day * us_per_s)
      + get_seconds_since_midnight_kst now_us * us_per_s + r.
Proof.
  unfold kst_date, get_seconds_since_midnight_kst.
  set (x := now_us + kst_offset_us).
  set (D := seconds_per_day * us_per_s).
  assert (HD : 0 < D) by (subst D; unfold seconds_per_day, us_per_s; lia).
  exists ((x mod D) mod us_per_s). split.
  - apply Z.mod_pos_bound. unfold us_per_s; lia.
  - pose proof (Z.div_mod x D ltac:(lia)).
    pose proof (Z.div_mod (x mod D) us_per_s ltac:(unfold us_per_s; lia)).
    lia.
Qed.

(** A Korea clock reading splits into the Korea date of
    [get_korea_timezone_now().date()], the whole seconds of
    [get_seconds_since_midnight_kst] and less than a second left over. *)
Theorem kst_reading_decomposition (now_us : Z) :
  exists r, 0 <= r < us_per_s /\
  now_us + kst_offset_us
    = kst_date now_us * (seconds_per_day * us_per_s)
      + get_seconds_since_midnight_kst now_us * us_per_s + r.
Proof. apply kst_reading_decomposition_aux. Qed.

(** Within one Korea day the births and deaths counters of the snapshots
    never decrease as the clock advances (for a non-negative annual
    count); they start again from [0] at the next Korea midnight. *)
Theorem counters_monotone_within_day (a us1 us2 : Z) :
  0 <= a -> kst_date us1 = kst_date us2 -> us1 <= us2 ->
  count_today a (get_seconds_since_midnight_kst us1)
    <= count_today a (get_seconds_since_midnight_kst us2).
Proof.
  intros Ha Hd Hle.
  destruct (kst_reading_decomposition_aux us1) as (r1 & Hr1 & E1).
  destruct (kst_reading_decomposition_aux us2) as (r2 & Hr2 & E2).
  pose proof (seconds_since_midnight_range us1).
  pose proof (seconds_since_midnight_range us2).
  assert (Hs : get_seconds_since_midnight_kst us1 <= get_seconds_since_midnight_kst us2).
  { unfold us_per_s, seconds_per_day in *. nia. }
  rewrite !count_today_quot, !Z.quot_div_nonneg by nia.
  apply Z.div_le_mono; nia.
Qed.

Lemma counters_monotone_within_day_witness :
  0 <= 216215 /\ kst_date 1000000 = kst_date 5000000000 /\ 1000000 <= 5000000000 /\
  count_today 216215 (get_seconds_since_midnight_kst 1000000)
    <= count_today 216215 (get_seconds_since_midnight_kst 5000000000).
Proof.
  assert (H1 : 0 <= 216215) by lia.
  assert (H2 : kst_date 1000000 = kst_date 5000000000) by reflexivity.
  assert (H3 : 1000000 <= 5000000000) by lia.
  exact (conj H1 (conj H2 (conj H3 (counters_monotone_within_day _ _ _ H1 H2 H3)))).
Defined.
